(** * OpenFGA server facade: a shallow embedding of [pkg/server/server.go]

    The development follows the Go file top to bottom: the error values the
    handlers build, the request context, the [Server] struct, the
    self-authorization gates ([CheckAuthz] and its two siblings), the RPC
    handlers and the constructor [NewServerWithOpts].

    Collaborators that live in other packages (the commands, the check
    resolver, the typesystem resolver, the authorizer, the generated
    [Validate] methods, the [serverErrors] package) are not part of the
    embedded file.  They are deterministic oracles: fields of the records
    [Server] and [World].  Tracing, metrics and logging are left out.

    Handlers run in a small state-and-error monad.  Its state holds the
    header writes issued through [s.transport.SetHeader] and a ghost trace of
    the collaborators that were called, in call order. *)

From Stdlib Require Import Ascii.
From stdpp Require Import base strings list gmap pretty.

Local Open Scope string_scope.

(** ** Go errors *)

(** The gRPC status codes that [server.go] names. *)
Module codes.
Inductive Code : Set := InvalidArgument | Internal | PermissionDenied.

#[global] Instance Code_eq_dec : EqDecision Code.
Proof. solve_decision. Defined.
End codes.

(** Package-level error variables that [server.go] tests with [errors.Is]. *)
Inductive sentinel : Set :=
| graph_ErrResolutionDepthExceeded
| condition_ErrEvaluationFailed
| context_DeadlineExceeded
| typesystem_ErrModelNotFound
| typesystem_ErrInvalidModel.

#[global] Instance sentinel_eq_dec : EqDecision sentinel.
Proof. solve_decision. Defined.

(** An error value is a gRPC status, a plain message, one of the sentinels, a
    wrapper around another error ([%w]) or the join of two errors. *)
Inductive error : Set :=
| statusError (c : codes.Code) (msg : string)
| errorString (msg : string)
| sentinelError (s : sentinel)
| wrapError (msg : string) (err : error)
| joinError (l r : error).

#[global] Instance error_eq_dec : EqDecision error.
Proof. solve_decision. Defined.

Module status.
Definition Error (c : codes.Code) (msg : string) : error := statusError c msg.
End status.

Module fmt.
Definition Errorf (msg : string) : error := errorString msg.
End fmt.

Module errors.
(** [errors.Is(err, target)] for a sentinel target: the target is found by
    walking [Unwrap], through both shapes of wrapping. *)
Fixpoint Is (err : error) (target : sentinel) : bool :=
  match err with
  | sentinelError s => bool_decide (s = target)
  | wrapError _ inner => Is inner target
  | joinError l r => Is l target || Is r target
  | statusError _ _ | errorString _ => false
  end.
End errors.

(** A call that returns [(value, error)]. *)
Inductive Result (A : Type) : Type :=
| Ok (a : A)
| Err (e : error).
Arguments Ok {A} a.
Arguments Err {A} e.

(** ** Protobuf messages, as far as [server.go] reads them *)

(** [openfgav1.ConsistencyPreference] is an open int32 enum. *)
Definition ConsistencyPreference : Set := Z.
Definition ConsistencyPreference_UNSPECIFIED : ConsistencyPreference := 0%Z.
Definition ConsistencyPreference_MINIMIZE_LATENCY : ConsistencyPreference := 100%Z.
Definition ConsistencyPreference_HIGHER_CONSISTENCY : ConsistencyPreference := 200%Z.

(** A message that the server hands on without looking inside. *)
Inductive ProtoMessage : Set := protoMessage (wire : string).

Record TupleKey : Set := {
  tk_User : string;
  tk_Relation : string;
  tk_Object : string;
  tk_Condition : option ProtoMessage
}.

Record CheckRequestTupleKey : Set := {
  crtk_User : string;
  crtk_Relation : string;
  crtk_Object : string
}.

Record CheckRequest : Set := {
  check_StoreId : string;
  check_AuthorizationModelId : string;
  check_TupleKey : CheckRequestTupleKey;
  check_ContextualTuples : list TupleKey;
  check_Context : option ProtoMessage;
  check_Consistency : ConsistencyPreference
}.

Record CheckResponse : Set := { Allowed : bool }.

Record ListObjectsRequest : Set := {
  lo_StoreId : string;
  lo_AuthorizationModelId : string;
  lo_Type : string;
  lo_Relation : string;
  lo_User : string;
  lo_ContextualTuples : list TupleKey;
  lo_Context : option ProtoMessage;
  lo_Consistency : ConsistencyPreference
}.

Record ListObjectsResponse : Set := { Objects : list string }.

(** [StreamedListObjectsRequest] has the fields of [ListObjectsRequest]. *)
Definition StreamedListObjectsRequest : Set := ListObjectsRequest.

Record ReadRequest : Set := {
  read_StoreId : string;
  read_TupleKey : option ProtoMessage;
  read_PageSize : option Z;
  read_ContinuationToken : string;
  read_Consistency : ConsistencyPreference
}.

Record TupleKeyWithoutCondition : Set := {
  tkwc_User : string;
  tkwc_Relation : string;
  tkwc_Object : string
}.

Record WriteRequest : Set := {
  write_StoreId : string;
  write_AuthorizationModelId : string;
  write_Writes : list TupleKey;
  write_Deletes : list TupleKeyWithoutCondition
}.

Record ExpandRequest : Set := {
  expand_StoreId : string;
  expand_AuthorizationModelId : string;
  expand_TupleKey : option ProtoMessage;
  expand_Consistency : ConsistencyPreference
}.

Record ReadAuthorizationModelRequest : Set := {
  ram_StoreId : string;
  ram_Id : string
}.

Record WriteAuthorizationModelRequest : Set := {
  wam_StoreId : string;
  wam_Model : ProtoMessage
}.

Record ReadAuthorizationModelsRequest : Set := {
  rams_StoreId : string;
  rams_PageSize : option Z;
  rams_ContinuationToken : string
}.

Record WriteAssertionsRequest : Set := {
  wa_StoreId : string;
  wa_AuthorizationModelId : string;
  wa_Assertions : list ProtoMessage
}.

Record ReadAssertionsRequest : Set := {
  ra_StoreId : string;
  ra_AuthorizationModelId : string
}.

Record ReadChangesRequest : Set := {
  rc_StoreId : string;
  rc_Type : string;
  rc_PageSize : option Z;
  rc_ContinuationToken : string
}.

Record CreateStoreRequest : Set := { cs_Name : string }.
Record DeleteStoreRequest : Set := { ds_StoreId : string }.
Record GetStoreRequest : Set := { gs_StoreId : string }.

Record ListStoresRequest : Set := {
  ls_PageSize : option Z;
  ls_ContinuationToken : string
}.

Record Store : Set := {
  store_Id : string;
  store_Name : string;
  store_CreatedAt : Z;
  store_UpdatedAt : Z
}.

Record ListStoresResponse : Set := {
  Stores : list Store;
  ContinuationToken : string
}.

(** ** The request context *)

Record AuthClaims : Set := { ClientID : string }.

(** What the handlers read from a [context.Context]: the pair that
    [authn.AuthClaimsFromContext] returns ([None] when [found] is false) and
    the flag that [validator.RequestIsValidatedFromContext] returns. *)
Record Context : Set := {
  AuthClaimsFromContext : option AuthClaims;
  RequestIsValidatedFromContext : bool
}.

Module context.
Definition Background : Context :=
  {| AuthClaimsFromContext := None; RequestIsValidatedFromContext := false |}.
End context.

(** ** Collaborators held by the server *)

(** [typesystem.TypeSystem], through the two methods the server calls. *)
Record TypeSystem : Type := {
  GetAuthorizationModelID : string;
  GetModuleForObjectTypeRelation : string -> string -> Result string
}.

(** Modelled from the spec: [graph.NewCheckRequestMetadata] and the metadata
    struct are in package [graph]; section 3 gives the metadata as depth, a
    dispatch counter and a was-throttled flag, shared by reference with the
    resolver. *)
Record ResolveCheckRequestMetadata : Set := {
  Depth : N;
  DispatchCounter : N;
  WasThrottled : bool
}.

Module graph.
Definition NewCheckRequestMetadata (maxDepth : N) : ResolveCheckRequestMetadata :=
  {| Depth := maxDepth; DispatchCounter := 0; WasThrottled := false |}.

Record ResolveCheckRequest : Set := {
  StoreID : string;
  AuthorizationModelID : string;
  TupleKey_ : TupleKey;
  ContextualTuples : list TupleKey;
  Context_ : option ProtoMessage;
  RequestMetadata : ResolveCheckRequestMetadata;
  Consistency : ConsistencyPreference
}.

Record ResolutionMetadata : Set := {
  DatastoreQueryCount : N;
  CycleDetected : bool
}.

Record ResolveCheckResponse : Set := {
  resp_Allowed : bool;
  resp_ResolutionMetadata : ResolutionMetadata
}.

(** [CheckResolver.ResolveCheck]: the answer, and the request metadata as the
    resolver left it (the Go request holds a pointer to it). *)
Definition CheckResolver : Type :=
  ResolveCheckRequest -> Result ResolveCheckResponse * ResolveCheckRequestMetadata.
End graph.

(** [authz.Authorizer], through the three methods the gates call. *)
Record Authorizer : Type := {
  Authorize : string -> string -> string -> list string -> Result bool;
  AuthorizeCreateStore : string -> Result bool;
  ListAuthorizedStores : string -> Result (list string)
}.

Definition ExperimentalFeatureFlag : Set := string.
Definition ExperimentalEnableConsistencyParams : ExperimentalFeatureFlag :=
  "enable-consistency-params".
Definition ExperimentalFGAOnFGAParams : ExperimentalFeatureFlag :=
  "enable-fga-on-fga".
Definition AuthorizationModelIDHeader : string := "Openfga-Authorization-Model-Id".

Record FGAOnFGAConfig : Set := {
  fga_Enabled : bool;
  fga_StoreID : string;
  fga_ModelID : string
}.

(** A datastore handle; the constructor only tests it against nil. *)
Inductive OpenFGADatastore : Set := openFGADatastore (name : string).

(** The fields of the [Server] struct that the embedded functions read.
    Fields that are only forwarded to command constructors (logger, encoder,
    deadlines, result limits, cache settings) are left out. *)
Record Server : Type := {
  datastore : option OpenFGADatastore;
  resolveNodeLimit : N;
  experimentals : list ExperimentalFeatureFlag;
  FGAOnFGA : FGAOnFGAConfig;
  typesystemResolver : string -> string -> Result TypeSystem;
  checkResolver : graph.CheckResolver;
  requestDurationByQueryHistogramBuckets : list N;
  requestDurationByDispatchCountHistogramBuckets : list N;
  checkDispatchThrottlingEnabled : bool;
  checkDispatchThrottlingDefaultThreshold : N;
  checkDispatchThrottlingMaxThreshold : N;
  listObjectsDispatchThrottlingEnabled : bool;
  listObjectsDispatchDefaultThreshold : N;
  listObjectsDispatchThrottlingMaxThreshold : N;
  listUsersDispatchThrottlingEnabled : bool;
  listUsersDispatchDefaultThreshold : N;
  listUsersDispatchThrottlingMaxThreshold : N;
  authorizer : option Authorizer
}.

(** Assignment to one field of the struct ([s.field = v]). *)
Definition set_datastore (v : option OpenFGADatastore) (s : Server) : Server :=
  {| datastore := v;
     resolveNodeLimit := resolveNodeLimit s;
     experimentals := experimentals s;
     FGAOnFGA := FGAOnFGA s;
     typesystemResolver := typesystemResolver s;
     checkResolver := checkResolver s;
     requestDurationByQueryHistogramBuckets := requestDurationByQueryHistogramBuckets s;
     requestDurationByDispatchCountHistogramBuckets := requestDurationByDispatchCountHistogramBuckets s;
     checkDispatchThrottlingEnabled := checkDispatchThrottlingEnabled s;
     checkDispatchThrottlingDefaultThreshold := checkDispatchThrottlingDefaultThreshold s;
     checkDispatchThrottlingMaxThreshold := checkDispatchThrottlingMaxThreshold s;
     listObjectsDispatchThrottlingEnabled := listObjectsDispatchThrottlingEnabled s;
     listObjectsDispatchDefaultThreshold := listObjectsDispatchDefaultThreshold s;
     listObjectsDispatchThrottlingMaxThreshold := listObjectsDispatchThrottlingMaxThreshold s;
     listUsersDispatchThrottlingEnabled := listUsersDispatchThrottlingEnabled s;
     listUsersDispatchDefaultThreshold := listUsersDispatchDefaultThreshold s;
     listUsersDispatchThrottlingMaxThreshold := listUsersDispatchThrottlingMaxThreshold s;
     authorizer := authorizer s |}.

Definition set_resolveNodeLimit (v : N) (s : Server) : Server :=
  {| datastore := datastore s;
     resolveNodeLimit := v;
     experimentals := experimentals s;
     FGAOnFGA := FGAOnFGA s;
     typesystemResolver := typesystemResolver s;
     checkResolver := checkResolver s;
     requestDurationByQueryHistogramBuckets := requestDurationByQueryHistogramBuckets s;
     requestDurationByDispatchCountHistogramBuckets := requestDurationByDispatchCountHistogramBuckets s;
     checkDispatchThrottlingEnabled := checkDispatchThrottlingEnabled s;
     checkDispatchThrottlingDefaultThreshold := checkDispatchThrottlingDefaultThreshold s;
     checkDispatchThrottlingMaxThreshold := checkDispatchThrottlingMaxThreshold s;
     listObjectsDispatchThrottlingEnabled := listObjectsDispatchThrottlingEnabled s;
     listObjectsDispatchDefaultThreshold := listObjectsDispatchDefaultThreshold s;
     listObjectsDispatchThrottlingMaxThreshold := listObjectsDispatchThrottlingMaxThreshold s;
     listUsersDispatchThrottlingEnabled := listUsersDispatchThrottlingEnabled s;
     listUsersDispatchDefaultThreshold := listUsersDispatchDefaultThreshold s;
     listUsersDispatchThrottlingMaxThreshold := listUsersDispatchThrottlingMaxThreshold s;
     authorizer := authorizer s |}.

Definition set_experimentals (v : list ExperimentalFeatureFlag) (s : Server) : Server :=
  {| datastore := datastore s;
     resolveNodeLimit := resolveNodeLimit s;
     experimentals := v;
     FGAOnFGA := FGAOnFGA s;
     typesystemResolver := typesystemResolver s;
     checkResolver := checkResolver s;
     requestDurationByQueryHistogramBuckets := requestDurationByQueryHistogramBuckets s;
     requestDurationByDispatchCountHistogramBuckets := requestDurationByDispatchCountHistogramBuckets s;
     checkDispatchThrottlingEnabled := checkDispatchThrottlingEnabled s;
     checkDispatchThrottlingDefaultThreshold := checkDispatchThrottlingDefaultThreshold s;
     checkDispatchThrottlingMaxThreshold := checkDispatchThrottlingMaxThreshold s;
     listObjectsDispatchThrottlingEnabled := listObjectsDispatchThrottlingEnabled s;
     listObjectsDispatchDefaultThreshold := listObjectsDispatchDefaultThreshold s;
     listObjectsDispatchThrottlingMaxThreshold := listObjectsDispatchThrottlingMaxThreshold s;
     listUsersDispatchThrottlingEnabled := listUsersDispatchThrottlingEnabled s;
     listUsersDispatchDefaultThreshold := listUsersDispatchDefaultThreshold s;
     listUsersDispatchThrottlingMaxThreshold := listUsersDispatchThrottlingMaxThreshold s;
     authorizer := authorizer s |}.

Definition set_FGAOnFGA (v : FGAOnFGAConfig) (s : Server) : Server :=
  {| datastore := datastore s;
     resolveNodeLimit := resolveNodeLimit s;
     experimentals := experimentals s;
     FGAOnFGA := v;
     typesystemResolver := typesystemResolver s;
     checkResolver := checkResolver s;
     requestDurationByQueryHistogramBuckets := requestDurationByQueryHistogramBuckets s;
     requestDurationByDispatchCountHistogramBuckets := requestDurationByDispatchCountHistogramBuckets s;
     checkDispatchThrottlingEnabled := checkDispatchThrottlingEnabled s;
     checkDispatchThrottlingDefaultThreshold := checkDispatchThrottlingDefaultThreshold s;
     checkDispatchThrottlingMaxThreshold := checkDispatchThrottlingMaxThreshold s;
     listObjectsDispatchThrottlingEnabled := listObjectsDispatchThrottlingEnabled s;
     listObjectsDispatchDefaultThreshold := listObjectsDispatchDefaultThreshold s;
     listObjectsDispatchThrottlingMaxThreshold := listObjectsDispatchThrottlingMaxThreshold s;
     listUsersDispatchThrottlingEnabled := listUsersDispatchThrottlingEnabled s;
     listUsersDispatchDefaultThreshold := listUsersDispatchDefaultThreshold s;
     listUsersDispatchThrottlingMaxThreshold := listUsersDispatchThrottlingMaxThreshold s;
     authorizer := authorizer s |}.

Definition set_typesystemResolver (v : string -> string -> Result TypeSystem) (s : Server) : Server :=
  {| datastore := datastore s;
     resolveNodeLimit := resolveNodeLimit s;
     experimentals := experimentals s;
     FGAOnFGA := FGAOnFGA s;
     typesystemResolver := v;
     checkResolver := checkResolver s;
     requestDurationByQueryHistogramBuckets := requestDurationByQueryHistogramBuckets s;
     requestDurationByDispatchCountHistogramBuckets := requestDurationByDispatchCountHistogramBuckets s;
     checkDispatchThrottlingEnabled := checkDispatchThrottlingEnabled s;
     checkDispatchThrottlingDefaultThreshold := checkDispatchThrottlingDefaultThreshold s;
     checkDispatchThrottlingMaxThreshold := checkDispatchThrottlingMaxThreshold s;
     listObjectsDispatchThrottlingEnabled := listObjectsDispatchThrottlingEnabled s;
     listObjectsDispatchDefaultThreshold := listObjectsDispatchDefaultThreshold s;
     listObjectsDispatchThrottlingMaxThreshold := listObjectsDispatchThrottlingMaxThreshold s;
     listUsersDispatchThrottlingEnabled := listUsersDispatchThrottlingEnabled s;
     listUsersDispatchDefaultThreshold := listUsersDispatchDefaultThreshold s;
     listUsersDispatchThrottlingMaxThreshold := listUsersDispatchThrottlingMaxThreshold s;
     authorizer := authorizer s |}.

Definition set_checkResolver (v : graph.CheckResolver) (s : Server) : Server :=
  {| datastore := datastore s;
     resolveNodeLimit := resolveNodeLimit s;
     experimentals := experimentals s;
     FGAOnFGA := FGAOnFGA s;
     typesystemResolver := typesystemResolver s;
     checkResolver := v;
     requestDurationByQueryHistogramBuckets := requestDurationByQueryHistogramBuckets s;
     requestDurationByDispatchCountHistogramBuckets := requestDurationByDispatchCountHistogramBuckets s;
     checkDispatchThrottlingEnabled := checkDispatchThrottlingEnabled s;
     checkDispatchThrottlingDefaultThreshold := checkDispatchThrottlingDefaultThreshold s;
     checkDispatchThrottlingMaxThreshold := checkDispatchThrottlingMaxThreshold s;
     listObjectsDispatchThrottlingEnabled := listObjectsDispatchThrottlingEnabled s;
     listObjectsDispatchDefaultThreshold := listObjectsDispatchDefaultThreshold s;
     listObjectsDispatchThrottlingMaxThreshold := listObjectsDispatchThrottlingMaxThreshold s;
     listUsersDispatchThrottlingEnabled := listUsersDispatchThrottlingEnabled s;
     listUsersDispatchDefaultThreshold := listUsersDispatchDefaultThreshold s;
     listUsersDispatchThrottlingMaxThreshold := listUsersDispatchThrottlingMaxThreshold s;
     authorizer := authorizer s |}.

Definition set_requestDurationByQueryHistogramBuckets (v : list N) (s : Server) : Server :=
  {| datastore := datastore s;
     resolveNodeLimit := resolveNodeLimit s;
     experimentals := experimentals s;
     FGAOnFGA := FGAOnFGA s;
     typesystemResolver := typesystemResolver s;
     checkResolver := checkResolver s;
     requestDurationByQueryHistogramBuckets := v;
     requestDurationByDispatchCountHistogramBuckets := requestDurationByDispatchCountHistogramBuckets s;
     checkDispatchThrottlingEnabled := checkDispatchThrottlingEnabled s;
     checkDispatchThrottlingDefaultThreshold := checkDispatchThrottlingDefaultThreshold s;
     checkDispatchThrottlingMaxThreshold := checkDispatchThrottlingMaxThreshold s;
     listObjectsDispatchThrottlingEnabled := listObjectsDispatchThrottlingEnabled s;
     listObjectsDispatchDefaultThreshold := listObjectsDispatchDefaultThreshold s;
     listObjectsDispatchThrottlingMaxThreshold := listObjectsDispatchThrottlingMaxThreshold s;
     listUsersDispatchThrottlingEnabled := listUsersDispatchThrottlingEnabled s;
     listUsersDispatchDefaultThreshold := listUsersDispatchDefaultThreshold s;
     listUsersDispatchThrottlingMaxThreshold := listUsersDispatchThrottlingMaxThreshold s;
     authorizer := authorizer s |}.

Definition set_requestDurationByDispatchCountHistogramBuckets (v : list N) (s : Server) : Server :=
  {| datastore := datastore s;
     resolveNodeLimit := resolveNodeLimit s;
     experimentals := experimentals s;
     FGAOnFGA := FGAOnFGA s;
     typesystemResolver := typesystemResolver s;
     checkResolver := checkResolver s;
     requestDurationByQueryHistogramBuckets := requestDurationByQueryHistogramBuckets s;
     requestDurationByDispatchCountHistogramBuckets := v;
     checkDispatchThrottlingEnabled := checkDispatchThrottlingEnabled s;
     checkDispatchThrottlingDefaultThreshold := checkDispatchThrottlingDefaultThreshold s;
     checkDispatchThrottlingMaxThreshold := checkDispatchThrottlingMaxThreshold s;
     listObjectsDispatchThrottlingEnabled := listObjectsDispatchThrottlingEnabled s;
     listObjectsDispatchDefaultThreshold := listObjectsDispatchDefaultThreshold s;
     listObjectsDispatchThrottlingMaxThreshold := listObjectsDispatchThrottlingMaxThreshold s;
     listUsersDispatchThrottlingEnabled := listUsersDispatchThrottlingEnabled s;
     listUsersDispatchDefaultThreshold := listUsersDispatchDefaultThreshold s;
     listUsersDispatchThrottlingMaxThreshold := listUsersDispatchThrottlingMaxThreshold s;
     authorizer := authorizer s |}.

Definition set_checkDispatchThrottlingEnabled (v : bool) (s : Server) : Server :=
  {| datastore := datastore s;
     resolveNodeLimit := resolveNodeLimit s;
     experimentals := experimentals s;
     FGAOnFGA := FGAOnFGA s;
     typesystemResolver := typesystemResolver s;
     checkResolver := checkResolver s;
     requestDurationByQueryHistogramBuckets := requestDurationByQueryHistogramBuckets s;
     requestDurationByDispatchCountHistogramBuckets := requestDurationByDispatchCountHistogramBuckets s;
     checkDispatchThrottlingEnabled := v;
     checkDispatchThrottlingDefaultThreshold := checkDispatchThrottlingDefaultThreshold s;
     checkDispatchThrottlingMaxThreshold := checkDispatchThrottlingMaxThreshold s;
     listObjectsDispatchThrottlingEnabled := listObjectsDispatchThrottlingEnabled s;
     listObjectsDispatchDefaultThreshold := listObjectsDispatchDefaultThreshold s;
     listObjectsDispatchThrottlingMaxThreshold := listObjectsDispatchThrottlingMaxThreshold s;
     listUsersDispatchThrottlingEnabled := listUsersDispatchThrottlingEnabled s;
     listUsersDispatchDefaultThreshold := listUsersDispatchDefaultThreshold s;
     listUsersDispatchThrottlingMaxThreshold := listUsersDispatchThrottlingMaxThreshold s;
     authorizer := authorizer s |}.

Definition set_checkDispatchThrottlingDefaultThreshold (v : N) (s : Server) : Server :=
  {| datastore := datastore s;
     resolveNodeLimit := resolveNodeLimit s;
     experimentals := experimentals s;
     FGAOnFGA := FGAOnFGA s;
     typesystemResolver := typesystemResolver s;
     checkResolver := checkResolver s;
     requestDurationByQueryHistogramBuckets := requestDurationByQueryHistogramBuckets s;
     requestDurationByDispatchCountHistogramBuckets := requestDurationByDispatchCountHistogramBuckets s;
     checkDispatchThrottlingEnabled := checkDispatchThrottlingEnabled s;
     checkDispatchThrottlingDefaultThreshold := v;
     checkDispatchThrottlingMaxThreshold := checkDispatchThrottlingMaxThreshold s;
     listObjectsDispatchThrottlingEnabled := listObjectsDispatchThrottlingEnabled s;
     listObjectsDispatchDefaultThreshold := listObjectsDispatchDefaultThreshold s;
     listObjectsDispatchThrottlingMaxThreshold := listObjectsDispatchThrottlingMaxThreshold s;
     listUsersDispatchThrottlingEnabled := listUsersDispatchThrottlingEnabled s;
     listUsersDispatchDefaultThreshold := listUsersDispatchDefaultThreshold s;
     listUsersDispatchThrottlingMaxThreshold := listUsersDispatchThrottlingMaxThreshold s;
     authorizer := authorizer s |}.

Definition set_checkDispatchThrottlingMaxThreshold (v : N) (s : Server) : Server :=
  {| datastore := datastore s;
     resolveNodeLimit := resolveNodeLimit s;
     experimentals := experimentals s;
     FGAOnFGA := FGAOnFGA s;
     typesystemResolver := typesystemResolver s;
     checkResolver := checkResolver s;
     requestDurationByQueryHistogramBuckets := requestDurationByQueryHistogramBuckets s;
     requestDurationByDispatchCountHistogramBuckets := requestDurationByDispatchCountHistogramBuckets s;
     checkDispatchThrottlingEnabled := checkDispatchThrottlingEnabled s;
     checkDispatchThrottlingDefaultThreshold := checkDispatchThrottlingDefaultThreshold s;
     checkDispatchThrottlingMaxThreshold := v;
     listObjectsDispatchThrottlingEnabled := listObjectsDispatchThrottlingEnabled s;
     listObjectsDispatchDefaultThreshold := listObjectsDispatchDefaultThreshold s;
     listObjectsDispatchThrottlingMaxThreshold := listObjectsDispatchThrottlingMaxThreshold s;
     listUsersDispatchThrottlingEnabled := listUsersDispatchThrottlingEnabled s;
     listUsersDispatchDefaultThreshold := listUsersDispatchDefaultThreshold s;
     listUsersDispatchThrottlingMaxThreshold := listUsersDispatchThrottlingMaxThreshold s;
     authorizer := authorizer s |}.

Definition set_listObjectsDispatchThrottlingEnabled (v : bool) (s : Server) : Server :=
  {| datastore := datastore s;
     resolveNodeLimit := resolveNodeLimit s;
     experimentals := experimentals s;
     FGAOnFGA := FGAOnFGA s;
     typesystemResolver := typesystemResolver s;
     checkResolver := checkResolver s;
     requestDurationByQueryHistogramBuckets := requestDurationByQueryHistogramBuckets s;
     requestDurationByDispatchCountHistogramBuckets := requestDurationByDispatchCountHistogramBuckets s;
     checkDispatchThrottlingEnabled := checkDispatchThrottlingEnabled s;
     checkDispatchThrottlingDefaultThreshold := checkDispatchThrottlingDefaultThreshold s;
     checkDispatchThrottlingMaxThreshold := checkDispatchThrottlingMaxThreshold s;
     listObjectsDispatchThrottlingEnabled := v;
     listObjectsDispatchDefaultThreshold := listObjectsDispatchDefaultThreshold s;
     listObjectsDispatchThrottlingMaxThreshold := listObjectsDispatchThrottlingMaxThreshold s;
     listUsersDispatchThrottlingEnabled := listUsersDispatchThrottlingEnabled s;
     listUsersDispatchDefaultThreshold := listUsersDispatchDefaultThreshold s;
     listUsersDispatchThrottlingMaxThreshold := listUsersDispatchThrottlingMaxThreshold s;
     authorizer := authorizer s |}.

Definition set_listObjectsDispatchDefaultThreshold (v : N) (s : Server) : Server :=
  {| datastore := datastore s;
     resolveNodeLimit := resolveNodeLimit s;
     experimentals := experimentals s;
     FGAOnFGA := FGAOnFGA s;
     typesystemResolver := typesystemResolver s;
     checkResolver := checkResolver s;
     requestDurationByQueryHistogramBuckets := requestDurationByQueryHistogramBuckets s;
     requestDurationByDispatchCountHistogramBuckets := requestDurationByDispatchCountHistogramBuckets s;
     checkDispatchThrottlingEnabled := checkDispatchThrottlingEnabled s;
     checkDispatchThrottlingDefaultThreshold := checkDispatchThrottlingDefaultThreshold s;
     checkDispatchThrottlingMaxThreshold := checkDispatchThrottlingMaxThreshold s;
     listObjectsDispatchThrottlingEnabled := listObjectsDispatchThrottlingEnabled s;
     listObjectsDispatchDefaultThreshold := v;
     listObjectsDispatchThrottlingMaxThreshold := listObjectsDispatchThrottlingMaxThreshold s;
     listUsersDispatchThrottlingEnabled := listUsersDispatchThrottlingEnabled s;
     listUsersDispatchDefaultThreshold := listUsersDispatchDefaultThreshold s;
     listUsersDispatchThrottlingMaxThreshold := listUsersDispatchThrottlingMaxThreshold s;
     authorizer := authorizer s |}.

Definition set_listObjectsDispatchThrottlingMaxThreshold (v : N) (s : Server) : Server :=
  {| datastore := datastore s;
     resolveNodeLimit := resolveNodeLimit s;
     experimentals := experimentals s;
     FGAOnFGA := FGAOnFGA s;
     typesystemResolver := typesystemResolver s;
     checkResolver := checkResolver s;
     requestDurationByQueryHistogramBuckets := requestDurationByQueryHistogramBuckets s;
     requestDurationByDispatchCountHistogramBuckets := requestDurationByDispatchCountHistogramBuckets s;
     checkDispatchThrottlingEnabled := checkDispatchThrottlingEnabled s;
     checkDispatchThrottlingDefaultThreshold := checkDispatchThrottlingDefaultThreshold s;
     checkDispatchThrottlingMaxThreshold := checkDispatchThrottlingMaxThreshold s;
     listObjectsDispatchThrottlingEnabled := listObjectsDispatchThrottlingEnabled s;
     listObjectsDispatchDefaultThreshold := listObjectsDispatchDefaultThreshold s;
     listObjectsDispatchThrottlingMaxThreshold := v;
     listUsersDispatchThrottlingEnabled := listUsersDispatchThrottlingEnabled s;
     listUsersDispatchDefaultThreshold := listUsersDispatchDefaultThreshold s;
     listUsersDispatchThrottlingMaxThreshold := listUsersDispatchThrottlingMaxThreshold s;
     authorizer := authorizer s |}.

Definition set_listUsersDispatchThrottlingEnabled (v : bool) (s : Server) : Server :=
  {| datastore := datastore s;
     resolveNodeLimit := resolveNodeLimit s;
     experimentals := experimentals s;
     FGAOnFGA := FGAOnFGA s;
     typesystemResolver := typesystemResolver s;
     checkResolver := checkResolver s;
     requestDurationByQueryHistogramBuckets := requestDurationByQueryHistogramBuckets s;
     requestDurationByDispatchCountHistogramBuckets := requestDurationByDispatchCountHistogramBuckets s;
     checkDispatchThrottlingEnabled := checkDispatchThrottlingEnabled s;
     checkDispatchThrottlingDefaultThreshold := checkDispatchThrottlingDefaultThreshold s;
     checkDispatchThrottlingMaxThreshold := checkDispatchThrottlingMaxThreshold s;
     listObjectsDispatchThrottlingEnabled := listObjectsDispatchThrottlingEnabled s;
     listObjectsDispatchDefaultThreshold := listObjectsDispatchDefaultThreshold s;
     listObjectsDispatchThrottlingMaxThreshold := listObjectsDispatchThrottlingMaxThreshold s;
     listUsersDispatchThrottlingEnabled := v;
     listUsersDispatchDefaultThreshold := listUsersDispatchDefaultThreshold s;
     listUsersDispatchThrottlingMaxThreshold := listUsersDispatchThrottlingMaxThreshold s;
     authorizer := authorizer s |}.

Definition set_listUsersDispatchDefaultThreshold (v : N) (s : Server) : Server :=
  {| datastore := datastore s;
     resolveNodeLimit := resolveNodeLimit s;
     experimentals := experimentals s;
     FGAOnFGA := FGAOnFGA s;
     typesystemResolver := typesystemResolver s;
     checkResolver := checkResolver s;
     requestDurationByQueryHistogramBuckets := requestDurationByQueryHistogramBuckets s;
     requestDurationByDispatchCountHistogramBuckets := requestDurationByDispatchCountHistogramBuckets s;
     checkDispatchThrottlingEnabled := checkDispatchThrottlingEnabled s;
     checkDispatchThrottlingDefaultThreshold := checkDispatchThrottlingDefaultThreshold s;
     checkDispatchThrottlingMaxThreshold := checkDispatchThrottlingMaxThreshold s;
     listObjectsDispatchThrottlingEnabled := listObjectsDispatchThrottlingEnabled s;
     listObjectsDispatchDefaultThreshold := listObjectsDispatchDefaultThreshold s;
     listObjectsDispatchThrottlingMaxThreshold := listObjectsDispatchThrottlingMaxThreshold s;
     listUsersDispatchThrottlingEnabled := listUsersDispatchThrottlingEnabled s;
     listUsersDispatchDefaultThreshold := v;
     listUsersDispatchThrottlingMaxThreshold := listUsersDispatchThrottlingMaxThreshold s;
     authorizer := authorizer s |}.

Definition set_listUsersDispatchThrottlingMaxThreshold (v : N) (s : Server) : Server :=
  {| datastore := datastore s;
     resolveNodeLimit := resolveNodeLimit s;
     experimentals := experimentals s;
     FGAOnFGA := FGAOnFGA s;
     typesystemResolver := typesystemResolver s;
     checkResolver := checkResolver s;
     requestDurationByQueryHistogramBuckets := requestDurationByQueryHistogramBuckets s;
     requestDurationByDispatchCountHistogramBuckets := requestDurationByDispatchCountHistogramBuckets s;
     checkDispatchThrottlingEnabled := checkDispatchThrottlingEnabled s;
     checkDispatchThrottlingDefaultThreshold := checkDispatchThrottlingDefaultThreshold s;
     checkDispatchThrottlingMaxThreshold := checkDispatchThrottlingMaxThreshold s;
     listObjectsDispatchThrottlingEnabled := listObjectsDispatchThrottlingEnabled s;
     listObjectsDispatchDefaultThreshold := listObjectsDispatchDefaultThreshold s;
     listObjectsDispatchThrottlingMaxThreshold := listObjectsDispatchThrottlingMaxThreshold s;
     listUsersDispatchThrottlingEnabled := listUsersDispatchThrottlingEnabled s;
     listUsersDispatchDefaultThreshold := listUsersDispatchDefaultThreshold s;
     listUsersDispatchThrottlingMaxThreshold := v;
     authorizer := authorizer s |}.

Definition set_authorizer (v : option Authorizer) (s : Server) : Server :=
  {| datastore := datastore s;
     resolveNodeLimit := resolveNodeLimit s;
     experimentals := experimentals s;
     FGAOnFGA := FGAOnFGA s;
     typesystemResolver := typesystemResolver s;
     checkResolver := checkResolver s;
     requestDurationByQueryHistogramBuckets := requestDurationByQueryHistogramBuckets s;
     requestDurationByDispatchCountHistogramBuckets := requestDurationByDispatchCountHistogramBuckets s;
     checkDispatchThrottlingEnabled := checkDispatchThrottlingEnabled s;
     checkDispatchThrottlingDefaultThreshold := checkDispatchThrottlingDefaultThreshold s;
     checkDispatchThrottlingMaxThreshold := checkDispatchThrottlingMaxThreshold s;
     listObjectsDispatchThrottlingEnabled := listObjectsDispatchThrottlingEnabled s;
     listObjectsDispatchDefaultThreshold := listObjectsDispatchDefaultThreshold s;
     listObjectsDispatchThrottlingMaxThreshold := listObjectsDispatchThrottlingMaxThreshold s;
     listUsersDispatchThrottlingEnabled := listUsersDispatchThrottlingEnabled s;
     listUsersDispatchDefaultThreshold := listUsersDispatchDefaultThreshold s;
     listUsersDispatchThrottlingMaxThreshold := listUsersDispatchThrottlingMaxThreshold s;
     authorizer := v |}.

(** The options of [server.go] that set a field modelled here. *)
Definition OpenFGAServiceV1Option : Type := Server -> Server.

Definition WithDatastore (ds : OpenFGADatastore) : OpenFGAServiceV1Option :=
  set_datastore (Some ds).
Definition WithResolveNodeLimit (limit : N) : OpenFGAServiceV1Option :=
  set_resolveNodeLimit limit.
Definition WithExperimentals (experimentals : list ExperimentalFeatureFlag)
    : OpenFGAServiceV1Option :=
  set_experimentals experimentals.
Definition WithFGAOnFGAParams (FGAOnFGA : FGAOnFGAConfig) : OpenFGAServiceV1Option :=
  set_FGAOnFGA FGAOnFGA.
Definition WithDispatchThrottlingCheckResolverEnabled (enabled : bool)
    : OpenFGAServiceV1Option :=
  set_checkDispatchThrottlingEnabled enabled.
Definition WithDispatchThrottlingCheckResolverThreshold (defaultThreshold : N)
    : OpenFGAServiceV1Option :=
  set_checkDispatchThrottlingDefaultThreshold defaultThreshold.
Definition WithDispatchThrottlingCheckResolverMaxThreshold (maxThreshold : N)
    : OpenFGAServiceV1Option :=
  set_checkDispatchThrottlingMaxThreshold maxThreshold.
Definition WithListObjectsDispatchThrottlingEnabled (enabled : bool)
    : OpenFGAServiceV1Option :=
  set_listObjectsDispatchThrottlingEnabled enabled.
Definition WithListObjectsDispatchThrottlingThreshold (threshold : N)
    : OpenFGAServiceV1Option :=
  set_listObjectsDispatchDefaultThreshold threshold.
Definition WithListObjectsDispatchThrottlingMaxThreshold (maxThreshold : N)
    : OpenFGAServiceV1Option :=
  set_listObjectsDispatchThrottlingMaxThreshold maxThreshold.
Definition WithListUsersDispatchThrottlingEnabled (enabled : bool)
    : OpenFGAServiceV1Option :=
  set_listUsersDispatchThrottlingEnabled enabled.
Definition WithListUsersDispatchThrottlingThreshold (threshold : N)
    : OpenFGAServiceV1Option :=
  set_listUsersDispatchDefaultThreshold threshold.
Definition WithListUsersDispatchThrottlingMaxThreshold (maxThreshold : N)
    : OpenFGAServiceV1Option :=
  set_listUsersDispatchThrottlingMaxThreshold maxThreshold.

(** ** The handler monad *)

(** Ghost trace: one event when a gate is entered and one per collaborator
    call, appended in the order in which the Go text reaches them. *)
Inductive Event : Type :=
| EvValidate (method : string)
| EvCheckAuthz (ctx : Context) (storeID apiMethod : string) (modules : list string)
| EvAuthorize (clientID storeID apiMethod : string) (modules : list string)
| EvCheckCreateStoreAuthz (ctx : Context)
| EvAuthorizeCreateStore (clientID : string)
| EvCheckAuthzListStores (ctx : Context)
| EvListAuthorizedStores (clientID : string)
| EvResolveTypesystem (storeID modelID : string)
| EvResolveCheck (req : graph.ResolveCheckRequest)
| EvExecute (command : string).

Record State : Type := {
  headers : list (string * string);
  trace : list Event
}.

Definition M (A : Type) : Type := State -> Result A * State.

#[global] Instance M_ret : MRet M := fun A a st => (Ok a, st).

#[global] Instance M_bind : MBind M := fun A B f m st =>
  match m st with
  | (Ok a, st') => f a st'
  | (Err e, st') => (Err e, st')
  end.

(** [return nil, err]. *)
Definition throw {A : Type} (e : error) : M A := fun st => (Err e, st).

(** A collaborator's [(value, error)] pair, returned to the handler. *)
Definition lift {A : Type} (r : Result A) : M A := fun st => (r, st).

(** [if err != nil { return nil, err }] for a call that returns only [error]. *)
Definition check (r : option error) : M unit :=
  match r with
  | Some e => throw e
  | None => mret tt
  end.

Definition record (ev : Event) : M unit := fun st =>
  (Ok tt, {| headers := headers st; trace := trace st ++ [ev] |}).

(** [s.transport.SetHeader(ctx, key, value)]. *)
Definition SetHeader (key value : string) : M unit := fun st =>
  (Ok tt, {| headers := headers st ++ [(key, value)]; trace := trace st |}).

Definition init : State := {| headers := []; trace := [] |}.

(** ** Packages the server file imports *)

(** The functions and constants of other packages that [server.go] uses.
    None of them is defined in the embedded file, so each is a parameter. *)
Record World : Type := {
  (* package serverErrors *)
  serverErrors_AuthorizationModelResolutionTooComplex : error;
  serverErrors_ThrottledTimeout : error;
  serverErrors_ValidationError : error -> error;
  serverErrors_HandleTupleValidateError : error -> error;
  serverErrors_HandleError : string -> error -> error;
  serverErrors_NewInternalError : string -> error -> error;
  serverErrors_LatestAuthorizationModelNotFound : string -> error;
  serverErrors_AuthorizationModelNotFound : string -> error;
  (* package httpmiddleware *)
  httpmiddleware_XHttpCode : string;
  (* package tuple *)
  tuple_SplitObject : string -> string * string;
  tuple_ConvertCheckRequestTupleKeyToTupleKey : CheckRequestTupleKey -> TupleKey;
  (* package validation *)
  validation_ValidateUserObjectRelation : TypeSystem -> TupleKey -> option error;
  validation_ValidateTuple : TypeSystem -> TupleKey -> option error;
  (* generated Validate methods; [Some msg] is an error whose text is [msg] *)
  CheckRequest_Validate : CheckRequest -> option string;
  ListObjectsRequest_Validate : ListObjectsRequest -> option string;
  StreamedListObjectsRequest_Validate : StreamedListObjectsRequest -> option string;
  ReadRequest_Validate : ReadRequest -> option string;
  WriteRequest_Validate : WriteRequest -> option string;
  ExpandRequest_Validate : ExpandRequest -> option string;
  ReadAuthorizationModelRequest_Validate : ReadAuthorizationModelRequest -> option string;
  WriteAuthorizationModelRequest_Validate : WriteAuthorizationModelRequest -> option string;
  ReadAuthorizationModelsRequest_Validate : ReadAuthorizationModelsRequest -> option string;
  WriteAssertionsRequest_Validate : WriteAssertionsRequest -> option string;
  ReadAssertionsRequest_Validate : ReadAssertionsRequest -> option string;
  ReadChangesRequest_Validate : ReadChangesRequest -> option string;
  CreateStoreRequest_Validate : CreateStoreRequest -> option string;
  DeleteStoreRequest_Validate : DeleteStoreRequest -> option string;
  GetStoreRequest_Validate : GetStoreRequest -> option string;
  ListStoresRequest_Validate : ListStoresRequest -> option string;
  (* package commands: constructors that can fail, and [Execute] *)
  commands_NewListObjectsQuery : Server -> option error;
  ListObjectsQuery_Execute : TypeSystem -> ListObjectsRequest -> Result ListObjectsResponse;
  ListObjectsQuery_ExecuteStreamed : TypeSystem -> StreamedListObjectsRequest -> Result unit;
  ReadQuery_Execute : ReadRequest -> Result ProtoMessage;
  WriteCommand_Execute : WriteRequest -> Result ProtoMessage;
  ExpandQuery_Execute : ExpandRequest -> Result ProtoMessage;
  ReadAuthorizationModelQuery_Execute : ReadAuthorizationModelRequest -> Result ProtoMessage;
  WriteAuthorizationModelCommand_Execute : WriteAuthorizationModelRequest -> Result ProtoMessage;
  ReadAuthorizationModelsQuery_Execute : ReadAuthorizationModelsRequest -> Result ProtoMessage;
  WriteAssertionsCommand_Execute : WriteAssertionsRequest -> Result ProtoMessage;
  ReadAssertionsQuery_Execute : string -> string -> Result ProtoMessage;
  ReadChangesQuery_Execute : ReadChangesRequest -> Result ProtoMessage;
  CreateStoreCommand_Execute : CreateStoreRequest -> Result ProtoMessage;
  DeleteStoreCommand_Execute : DeleteStoreRequest -> Result ProtoMessage;
  GetStoreQuery_Execute : GetStoreRequest -> Result ProtoMessage;
  ListStoresQuery_Execute : ListStoresRequest -> Result ListStoresResponse;
  (* package serverconfig: the defaults the constructor starts from *)
  serverconfig_DefaultResolveNodeLimit : N;
  serverconfig_DefaultCheckDispatchThrottlingEnabled : bool;
  serverconfig_DefaultCheckDispatchThrottlingDefaultThreshold : N;
  serverconfig_DefaultListObjectsDispatchThrottlingEnabled : bool;
  serverconfig_DefaultListObjectsDispatchThrottlingDefaultThreshold : N;
  serverconfig_DefaultListObjectsDispatchThrottlingMaxThreshold : N;
  serverconfig_DefaultListUsersDispatchThrottlingEnabled : bool;
  serverconfig_DefaultListUsersDispatchThrottlingDefaultThreshold : N;
  serverconfig_DefaultListUsersDispatchThrottlingMaxThreshold : N;
  (* what the constructor builds from the configured struct *)
  graph_NewOrderedCheckResolvers : Server -> graph.CheckResolver;
  typesystem_MemoizedTypesystemResolverFunc :
    option OpenFGADatastore -> string -> string -> Result TypeSystem;
  authz_NewAuthorizer : string -> string -> Server -> Result Authorizer
}.

(** ** The handlers *)

Module http.
Definition StatusCreated : Z := 201.
Definition StatusNoContent : Z := 204.
End http.

Module strconv.
Definition Itoa (n : Z) : string := pretty n.
End strconv.

Section Handlers.

Context (W : World).

Definition IsExperimentallyEnabled (s : Server) (flag : ExperimentalFeatureFlag) : bool :=
  bool_decide (flag ∈ experimentals s).

Definition fgaOnFgaIsEnabled (s : Server) : bool :=
  IsExperimentallyEnabled s ExperimentalFGAOnFGAParams && fga_Enabled (FGAOnFGA s).

(** If the requested consistency preference is not UNSPECIFIED, but the
    experimental flag is not enabled, returns an error. *)
Definition validateConsistencyRequest (s : Server) (c : ConsistencyPreference) : option error :=
  if negb (IsExperimentallyEnabled s ExperimentalEnableConsistencyParams)
     && negb (bool_decide (ConsistencyPreference_UNSPECIFIED = c))
  then Some (status.Error codes.InvalidArgument
    "Consistency parameters are not enabled. They can be enabled for experimental use by passing the `--experimentals enable-consistency-params` configuration option when running OpenFGA server")
  else None.

Definition validateFGAOnFGAEnabled (s : Server) : option error :=
  if fgaOnFgaIsEnabled s
     && (bool_decide (fga_StoreID (FGAOnFGA s) = "") || bool_decide (fga_ModelID (FGAOnFGA s) = ""))
  then Some (status.Error codes.InvalidArgument
    "FGA on FGA parameters are not enabled. They can be enabled for experimental use by passing the `--experimentals enable-fga-on-fga` configuration option when running OpenFGA server. Additionally, the `--fga-on-fga-store-id` and `--fga-on-fga-model-id` parameters must not be empty")
  else None.

(** The block every handler repeats:
    [if !validator.RequestIsValidatedFromContext(ctx) { if err := req.Validate(); err != nil { return nil, status.Error(codes.InvalidArgument, err.Error()) } }]. *)
Definition validate (ctx : Context) (method : string) (v : option string) : M unit :=
  if RequestIsValidatedFromContext ctx then mret tt
  else
    record (EvValidate method);;
    match v with
    | Some msg => throw (status.Error codes.InvalidArgument msg)
    | None => mret tt
    end.

(** resolveTypesystem resolves the underlying TypeSystem given the storeID and
    modelID and sets the model-id response header. *)
Definition resolveTypesystem (s : Server) (storeID modelID : string) : M TypeSystem :=
  record (EvResolveTypesystem storeID modelID);;
  match typesystemResolver s storeID modelID with
  | Err err =>
      if errors.Is err typesystem_ErrModelNotFound then
        if bool_decide (modelID = "")
        then throw (serverErrors_LatestAuthorizationModelNotFound W storeID)
        else throw (serverErrors_AuthorizationModelNotFound W modelID)
      else if errors.Is err typesystem_ErrInvalidModel then
        throw (serverErrors_ValidationError W err)
      else throw (serverErrors_HandleError W "" err)
  | Ok typesys =>
      SetHeader AuthorizationModelIDHeader (GetAuthorizationModelID typesys);;
      mret typesys
  end.

(** *** The three gates *)

Definition CheckAuthz (s : Server) (ctx : Context) (storeID apiMethod : string)
    (modules : list string) : M unit :=
  record (EvCheckAuthz ctx storeID apiMethod modules);;
  match authorizer s with
  | Some a =>
      match AuthClaimsFromContext ctx with
      | None => throw (status.Error codes.Internal "client ID not found in context")
      | Some claims =>
          record (EvAuthorize (ClientID claims) storeID apiMethod modules);;
          authorized ← lift (Authorize a (ClientID claims) storeID apiMethod modules);
          if negb authorized
          then throw (status.Error codes.PermissionDenied "permission denied")
          else mret tt
      end
  | None => mret tt
  end.

Definition CheckCreateStoreAuthz (s : Server) (ctx : Context) : M unit :=
  record (EvCheckCreateStoreAuthz ctx);;
  match authorizer s with
  | Some a =>
      match AuthClaimsFromContext ctx with
      | None => throw (status.Error codes.Internal "client ID not found in context")
      | Some claims =>
          record (EvAuthorizeCreateStore (ClientID claims));;
          authorized ← lift (AuthorizeCreateStore a (ClientID claims));
          if negb authorized
          then throw (status.Error codes.PermissionDenied "permission denied")
          else mret tt
      end
  | None => mret tt
  end.

(** The Go function returns [([]string, error)].  [None] is the nil slice of
    the last [return nil, nil]; the empty slice that accompanies a non-nil
    error is dropped, as the caller does. *)
Definition CheckAuthzListStores (s : Server) (ctx : Context) : M (option (list string)) :=
  record (EvCheckAuthzListStores ctx);;
  match authorizer s with
  | Some a =>
      match AuthClaimsFromContext ctx with
      | None => throw (status.Error codes.Internal "client ID not found in context")
      | Some claims =>
          record (EvListAuthorizedStores (ClientID claims));;
          list ← lift (ListAuthorizedStores a (ClientID claims));
          mret (Some list)
      end
  | None => mret None
  end.

(** *** Check *)

Fixpoint validateContextualTuples (typesys : TypeSystem) (tks : list TupleKey) : M unit :=
  match tks with
  | [] => mret tt
  | ctxTuple :: rest =>
      match validation_ValidateTuple W typesys ctxTuple with
      | Some err => throw (serverErrors_HandleTupleValidateError W err)
      | None => validateContextualTuples typesys rest
      end
  end.

Definition CheckWithoutAuthz (s : Server) (ctx : Context) (req : CheckRequest) : M CheckResponse :=
  check (validateConsistencyRequest s (check_Consistency req));;
  let tk := check_TupleKey req in
  validate ctx "Check" (CheckRequest_Validate W req);;
  let storeID := check_StoreId req in
  typesys ← resolveTypesystem s storeID (check_AuthorizationModelId req);
  match validation_ValidateUserObjectRelation W typesys
          (tuple_ConvertCheckRequestTupleKeyToTupleKey W tk) with
  | Some err => throw (serverErrors_ValidationError W err)
  | None =>
      validateContextualTuples typesys (check_ContextualTuples req);;
      let checkRequestMetadata := graph.NewCheckRequestMetadata (resolveNodeLimit s) in
      let resolveCheckRequest :=
        {| graph.StoreID := check_StoreId req;
           graph.AuthorizationModelID := GetAuthorizationModelID typesys;
           graph.TupleKey_ := tuple_ConvertCheckRequestTupleKeyToTupleKey W (check_TupleKey req);
           graph.ContextualTuples := check_ContextualTuples req;
           graph.Context_ := check_Context req;
           graph.RequestMetadata := checkRequestMetadata;
           graph.Consistency := check_Consistency req |} in
      record (EvResolveCheck resolveCheckRequest);;
      let '(result, metadata) := checkResolver s resolveCheckRequest in
      match result with
      | Err err =>
          if errors.Is err graph_ErrResolutionDepthExceeded then
            throw (serverErrors_AuthorizationModelResolutionTooComplex W)
          else if errors.Is err condition_ErrEvaluationFailed then
            throw (serverErrors_ValidationError W err)
          else if errors.Is err context_DeadlineExceeded && WasThrottled metadata then
            throw (serverErrors_ThrottledTimeout W)
          else throw (serverErrors_HandleError W "" err)
      | Ok resp => mret {| Allowed := graph.resp_Allowed resp |}
      end
  end.

Definition Check (s : Server) (ctx : Context) (req : CheckRequest) : M CheckResponse :=
  CheckAuthz s ctx (check_StoreId req) "Check" [];;
  CheckWithoutAuthz s ctx req.

(** A command's [Execute], with its trace event. *)
Definition execute {A : Type} (command : string) (r : Result A) : M A :=
  record (EvExecute command);;
  lift r.

(** *** ListObjects and StreamedListObjects *)

Definition ListObjectsWithoutAuthz (s : Server) (ctx : Context) (req : ListObjectsRequest)
    : M ListObjectsResponse :=
  check (validateConsistencyRequest s (lo_Consistency req));;
  let targetObjectType := lo_Type req in
  validate ctx "ListObjects" (ListObjectsRequest_Validate W req);;
  let storeID := lo_StoreId req in
  typesys ← resolveTypesystem s storeID (lo_AuthorizationModelId req);
  match commands_NewListObjectsQuery W s with
  | Some err => throw (serverErrors_NewInternalError W "" err)
  | None =>
      record (EvExecute "ListObjectsQuery.Execute");;
      match ListObjectsQuery_Execute W typesys
              {| lo_StoreId := storeID;
                 lo_ContextualTuples := lo_ContextualTuples req;
                 lo_AuthorizationModelId := GetAuthorizationModelID typesys;
                 lo_Type := targetObjectType;
                 lo_Relation := lo_Relation req;
                 lo_User := lo_User req;
                 lo_Context := lo_Context req;
                 lo_Consistency := lo_Consistency req |} with
      | Err err =>
          if errors.Is err condition_ErrEvaluationFailed
          then throw (serverErrors_ValidationError W err)
          else throw err
      | Ok result => mret {| Objects := Objects result |}
      end
  end.

Definition ListObjects (s : Server) (ctx : Context) (req : ListObjectsRequest)
    : M ListObjectsResponse :=
  CheckAuthz s ctx (lo_StoreId req) "ListObjects" [];;
  ListObjectsWithoutAuthz s ctx req.

(** [srvContext] is [srv.Context()].  The gate is called with
    [context.Background()], as in the Go text. *)
Definition StreamedListObjects (s : Server) (req : StreamedListObjectsRequest)
    (srvContext : Context) : M unit :=
  CheckAuthz s context.Background (lo_StoreId req) "StreamedListObjects" [];;
  check (validateConsistencyRequest s (lo_Consistency req));;
  let ctx := srvContext in
  validate ctx "StreamedListObjects" (StreamedListObjectsRequest_Validate W req);;
  let storeID := lo_StoreId req in
  typesys ← resolveTypesystem s storeID (lo_AuthorizationModelId req);
  match commands_NewListObjectsQuery W s with
  | Some err => throw (serverErrors_NewInternalError W "" err)
  | None =>
      let req :=
        {| lo_StoreId := lo_StoreId req;
           lo_AuthorizationModelId := GetAuthorizationModelID typesys;
           lo_Type := lo_Type req;
           lo_Relation := lo_Relation req;
           lo_User := lo_User req;
           lo_ContextualTuples := lo_ContextualTuples req;
           lo_Context := lo_Context req;
           lo_Consistency := lo_Consistency req |} in
      execute "ListObjectsQuery.ExecuteStreamed" (ListObjectsQuery_ExecuteStreamed W typesys req)
  end.

(** *** Read *)

Definition Read (s : Server) (ctx : Context) (req : ReadRequest) : M ProtoMessage :=
  let methodName := "Read" in
  CheckAuthz s ctx (read_StoreId req) methodName [];;
  check (validateConsistencyRequest s (read_Consistency req));;
  let tk := read_TupleKey req in
  validate ctx methodName (ReadRequest_Validate W req);;
  execute "ReadQuery.Execute"
    (ReadQuery_Execute W
       {| read_StoreId := read_StoreId req;
          read_TupleKey := tk;
          read_PageSize := read_PageSize req;
          read_ContinuationToken := read_ContinuationToken req;
          read_Consistency := read_Consistency req |}).

(** *** Write *)

(** The loop over [req.GetWrites().GetTupleKeys()].  The boolean is
    [shouldCheckOnStore]; the set is [modulesMap]. *)
Fixpoint modulesOfWrites (typesys : TypeSystem) (tks : list TupleKey)
    (modulesMap : gset string) : Result (gset string * bool) :=
  match tks with
  | [] => Ok (modulesMap, false)
  | tupleKey :: rest =>
      let '(objType, _) := tuple_SplitObject W (tk_Object tupleKey) in
      match GetModuleForObjectTypeRelation typesys objType (tk_Relation tupleKey) with
      | Err err => Err err
      | Ok mod_ =>
          if bool_decide (mod_ = "") then Ok (modulesMap, true)
          else modulesOfWrites typesys rest ({[mod_]} ∪ modulesMap)
      end
  end.

(** The loop over [req.GetDeletes().GetTupleKeys()]: an empty module only
    breaks out of the loop. *)
Fixpoint modulesOfDeletes (typesys : TypeSystem) (tks : list TupleKeyWithoutCondition)
    (modulesMap : gset string) : Result (gset string) :=
  match tks with
  | [] => Ok modulesMap
  | tupleKey :: rest =>
      let '(objType, _) := tuple_SplitObject W (tkwc_Object tupleKey) in
      match GetModuleForObjectTypeRelation typesys objType (tkwc_Relation tupleKey) with
      | Err err => Err err
      | Ok mod_ =>
          if bool_decide (mod_ = "") then Ok modulesMap
          else modulesOfDeletes typesys rest ({[mod_]} ∪ modulesMap)
      end
  end.

(** getModulesForWriteRequest returns the modules that should be checked for
    the write request.  The Go map is a finite set; the returned slice lists
    its keys (Go leaves their order unspecified, [elements] fixes one). *)
Definition getModulesForWriteRequest (s : Server) (req : WriteRequest) (typesys : TypeSystem)
    : Result (list string) :=
  match modulesOfWrites typesys (write_Writes req) ∅ with
  | Err err => Err err
  | Ok (modulesMap, shouldCheckOnStore) =>
      match (if negb shouldCheckOnStore
             then modulesOfDeletes typesys (write_Deletes req) modulesMap
             else Ok modulesMap) with
      | Err err => Err err
      | Ok modulesMap =>
          if shouldCheckOnStore then Ok []
          else Ok (elements modulesMap)
      end
  end.

Definition Write (s : Server) (ctx : Context) (req : WriteRequest) : M ProtoMessage :=
  let methodName := "Write" in
  validate ctx methodName (WriteRequest_Validate W req);;
  let storeID := write_StoreId req in
  typesys ← resolveTypesystem s storeID (write_AuthorizationModelId req);
  (if fgaOnFgaIsEnabled s && bool_decide (is_Some (authorizer s)) then
     modules ← lift (getModulesForWriteRequest s req typesys);
     CheckAuthz s ctx (write_StoreId req) methodName modules
   else mret tt);;
  execute "WriteCommand.Execute"
    (WriteCommand_Execute W
       {| write_StoreId := storeID;
          write_AuthorizationModelId := GetAuthorizationModelID typesys;
          write_Writes := write_Writes req;
          write_Deletes := write_Deletes req |}).

(** *** Expand *)

Definition Expand (s : Server) (ctx : Context) (req : ExpandRequest) : M ProtoMessage :=
  let methodName := "Expand" in
  CheckAuthz s ctx (expand_StoreId req) methodName [];;
  check (validateConsistencyRequest s (expand_Consistency req));;
  let tk := expand_TupleKey req in
  validate ctx methodName (ExpandRequest_Validate W req);;
  let storeID := expand_StoreId req in
  typesys ← resolveTypesystem s storeID (expand_AuthorizationModelId req);
  execute "ExpandQuery.Execute"
    (ExpandQuery_Execute W
       {| expand_StoreId := storeID;
          expand_AuthorizationModelId := GetAuthorizationModelID typesys;
          expand_TupleKey := tk;
          expand_Consistency := expand_Consistency req |}).

(** *** Authorization models, assertions, changes *)

Definition ReadAuthorizationModel (s : Server) (ctx : Context)
    (req : ReadAuthorizationModelRequest) : M ProtoMessage :=
  let methodName := "ReadAuthorizationModel" in
  CheckAuthz s ctx (ram_StoreId req) methodName [];;
  validate ctx methodName (ReadAuthorizationModelRequest_Validate W req);;
  execute "ReadAuthorizationModelQuery.Execute" (ReadAuthorizationModelQuery_Execute W req).

Definition WriteAuthorizationModel (s : Server) (ctx : Context)
    (req : WriteAuthorizationModelRequest) : M ProtoMessage :=
  let methodName := "WriteAuthorizationModel" in
  CheckAuthz s ctx (wam_StoreId req) methodName [];;
  validate ctx methodName (WriteAuthorizationModelRequest_Validate W req);;
  res ← execute "WriteAuthorizationModelCommand.Execute"
          (WriteAuthorizationModelCommand_Execute W req);
  SetHeader (httpmiddleware_XHttpCode W) (strconv.Itoa http.StatusCreated);;
  mret res.

Definition ReadAuthorizationModels (s : Server) (ctx : Context)
    (req : ReadAuthorizationModelsRequest) : M ProtoMessage :=
  let methodName := "ReadAuthorizationModels" in
  CheckAuthz s ctx (rams_StoreId req) methodName [];;
  validate ctx methodName (ReadAuthorizationModelsRequest_Validate W req);;
  execute "ReadAuthorizationModelsQuery.Execute" (ReadAuthorizationModelsQuery_Execute W req).

Definition WriteAssertions (s : Server) (ctx : Context) (req : WriteAssertionsRequest)
    : M ProtoMessage :=
  let methodName := "WriteAssertions" in
  CheckAuthz s ctx (wa_StoreId req) methodName [];;
  validate ctx methodName (WriteAssertionsRequest_Validate W req);;
  let storeID := wa_StoreId req in
  typesys ← resolveTypesystem s storeID (wa_AuthorizationModelId req);
  res ← execute "WriteAssertionsCommand.Execute"
          (WriteAssertionsCommand_Execute W
             {| wa_StoreId := storeID;
                wa_AuthorizationModelId := GetAuthorizationModelID typesys;
                wa_Assertions := wa_Assertions req |});
  SetHeader (httpmiddleware_XHttpCode W) (strconv.Itoa http.StatusNoContent);;
  mret res.

Definition ReadAssertions (s : Server) (ctx : Context) (req : ReadAssertionsRequest)
    : M ProtoMessage :=
  let methodName := "ReadAssertions" in
  CheckAuthz s ctx (ra_StoreId req) methodName [];;
  validate ctx methodName (ReadAssertionsRequest_Validate W req);;
  typesys ← resolveTypesystem s (ra_StoreId req) (ra_AuthorizationModelId req);
  execute "ReadAssertionsQuery.Execute"
    (ReadAssertionsQuery_Execute W (ra_StoreId req) (GetAuthorizationModelID typesys)).

Definition ReadChanges (s : Server) (ctx : Context) (req : ReadChangesRequest)
    : M ProtoMessage :=
  let methodName := "ReadChanges" in
  CheckAuthz s ctx (rc_StoreId req) methodName [];;
  validate ctx methodName (ReadChangesRequest_Validate W req);;
  execute "ReadChangesQuery.Execute" (ReadChangesQuery_Execute W req).

(** *** Stores *)

Definition CreateStore (s : Server) (ctx : Context) (req : CreateStoreRequest)
    : M ProtoMessage :=
  let methodName := "CreateStore" in
  validate ctx methodName (CreateStoreRequest_Validate W req);;
  CheckCreateStoreAuthz s ctx;;
  res ← execute "CreateStoreCommand.Execute" (CreateStoreCommand_Execute W req);
  SetHeader (httpmiddleware_XHttpCode W) (strconv.Itoa http.StatusCreated);;
  mret res.

Definition DeleteStore (s : Server) (ctx : Context) (req : DeleteStoreRequest)
    : M ProtoMessage :=
  let methodName := "DeleteStore" in
  validate ctx methodName (DeleteStoreRequest_Validate W req);;
  CheckAuthz s ctx (ds_StoreId req) methodName [];;
  res ← execute "DeleteStoreCommand.Execute" (DeleteStoreCommand_Execute W req);
  SetHeader (httpmiddleware_XHttpCode W) (strconv.Itoa http.StatusNoContent);;
  mret res.

Definition GetStore (s : Server) (ctx : Context) (req : GetStoreRequest) : M ProtoMessage :=
  let methodName := "GetStore" in
  validate ctx methodName (GetStoreRequest_Validate W req);;
  CheckAuthz s ctx (gs_StoreId req) methodName [];;
  execute "GetStoreQuery.Execute" (GetStoreQuery_Execute W req).

(** The first loop of [ListStores]: every authorized store id becomes a key
    of [storesMap].  Ranging over the nil slice adds nothing. *)
Definition storesMapOf (stores : option (list string)) : gset string :=
  foldl (fun storesMap store => {[store]} ∪ storesMap) ∅ (default [] stores).

Definition ListStores (s : Server) (ctx : Context) (req : ListStoresRequest)
    : M ListStoresResponse :=
  let methodName := "ListStores" in
  validate ctx methodName (ListStoresRequest_Validate W req);;
  stores ← CheckAuthzListStores s ctx;
  let storesMap := storesMapOf stores in
  resp ← execute "ListStoresQuery.Execute" (ListStoresQuery_Execute W req);
  let accessibleStores := filter (fun store => store_Id store ∈ storesMap) (Stores resp) in
  mret {| Stores := accessibleStores; ContinuationToken := ContinuationToken resp |}.

(** ** The constructor *)

(** The struct literal of [NewServerWithOpts] with the package defaults, and
    the options applied to it in order.  The two resolver fields are nil in
    the struct literal; the functions put there stand for nil and are
    replaced before any successful return. *)
Definition configure (opts : list OpenFGAServiceV1Option) : Server :=
  let s :=
    {| datastore := None;
       resolveNodeLimit := serverconfig_DefaultResolveNodeLimit W;
       experimentals := [];
       FGAOnFGA := {| fga_Enabled := false; fga_StoreID := ""; fga_ModelID := "" |};
       typesystemResolver := fun _ _ => Err (fmt.Errorf "nil typesystem resolver");
       checkResolver := fun req =>
         (Err (fmt.Errorf "nil check resolver"), graph.RequestMetadata req);
       requestDurationByQueryHistogramBuckets := [50; 200]%N;
       requestDurationByDispatchCountHistogramBuckets := [50; 200]%N;
       checkDispatchThrottlingEnabled := serverconfig_DefaultCheckDispatchThrottlingEnabled W;
       checkDispatchThrottlingDefaultThreshold :=
         serverconfig_DefaultCheckDispatchThrottlingDefaultThreshold W;
       checkDispatchThrottlingMaxThreshold := 0;
       listObjectsDispatchThrottlingEnabled :=
         serverconfig_DefaultListObjectsDispatchThrottlingEnabled W;
       listObjectsDispatchDefaultThreshold :=
         serverconfig_DefaultListObjectsDispatchThrottlingDefaultThreshold W;
       listObjectsDispatchThrottlingMaxThreshold :=
         serverconfig_DefaultListObjectsDispatchThrottlingMaxThreshold W;
       listUsersDispatchThrottlingEnabled :=
         serverconfig_DefaultListUsersDispatchThrottlingEnabled W;
       listUsersDispatchDefaultThreshold :=
         serverconfig_DefaultListUsersDispatchThrottlingDefaultThreshold W;
       listUsersDispatchThrottlingMaxThreshold :=
         serverconfig_DefaultListUsersDispatchThrottlingMaxThreshold W;
       authorizer := None |} in
  foldl (fun s opt => opt s) s opts.

(** The part of [NewServerWithOpts] below the Go comment "below this point,
    don't throw errors or we may leak resources in tests": the resolvers are
    built, the FGA-on-FGA parameters are validated and the authorizer is
    created. *)
Definition buildResources (s : Server) : Result Server :=
  let s := set_checkResolver (graph_NewOrderedCheckResolvers W s) s in
  let s := set_typesystemResolver (typesystem_MemoizedTypesystemResolverFunc W (datastore s)) s in
  match validateFGAOnFGAEnabled s with
  | Some err => Err err
  | None =>
      if fgaOnFgaIsEnabled s then
        match authz_NewAuthorizer W (fga_StoreID (FGAOnFGA s)) (fga_ModelID (FGAOnFGA s)) s with
        | Err err => Err err
        | Ok a => Ok (set_authorizer (Some a) s)
        end
      else Ok s
  end.

(** NewServerWithOpts returns a new server. *)
Definition NewServerWithOpts (opts : list OpenFGAServiceV1Option) : Result Server :=
  let s := configure opts in
  if bool_decide (datastore s = None) then
    Err (fmt.Errorf "a datastore option must be provided")
  else if bool_decide (length (requestDurationByQueryHistogramBuckets s) = 0) then
    Err (fmt.Errorf "request duration datastore count buckets must not be empty")
  else if bool_decide (length (requestDurationByDispatchCountHistogramBuckets s) = 0) then
    Err (fmt.Errorf "request duration by dispatch count buckets must not be empty")
  else if checkDispatchThrottlingEnabled s
          && negb (checkDispatchThrottlingMaxThreshold s =? 0)%N
          && (checkDispatchThrottlingMaxThreshold s <? checkDispatchThrottlingDefaultThreshold s)%N then
    Err (fmt.Errorf "check default dispatch throttling threshold must be equal or smaller than max dispatch threshold for Check")
  else if negb (listObjectsDispatchThrottlingMaxThreshold s =? 0)%N
          && (listObjectsDispatchThrottlingMaxThreshold s <? listObjectsDispatchDefaultThreshold s)%N then
    Err (fmt.Errorf "ListObjects default dispatch throttling threshold must be equal or smaller than max dispatch threshold for ListObjects")
  else if negb (listUsersDispatchThrottlingMaxThreshold s =? 0)%N
          && (listUsersDispatchThrottlingMaxThreshold s <? listUsersDispatchDefaultThreshold s)%N then
    Err (fmt.Errorf "ListUsers default dispatch throttling threshold must be equal or smaller than max dispatch threshold for ListUsers")
  else buildResources s.

End Handlers.

(** ** The API surface as one type *)

(** One constructor per RPC of [server.go].  For [CallStreamedListObjects]
    the context handed to [serve] is the stream's [srv.Context()]. *)
Inductive ApiCall : Set :=
| CallCheck (req : CheckRequest)
| CallListObjects (req : ListObjectsRequest)
| CallStreamedListObjects (req : StreamedListObjectsRequest)
| CallRead (req : ReadRequest)
| CallWrite (req : WriteRequest)
| CallExpand (req : ExpandRequest)
| CallReadAuthorizationModel (req : ReadAuthorizationModelRequest)
| CallWriteAuthorizationModel (req : WriteAuthorizationModelRequest)
| CallReadAuthorizationModels (req : ReadAuthorizationModelsRequest)
| CallWriteAssertions (req : WriteAssertionsRequest)
| CallReadAssertions (req : ReadAssertionsRequest)
| CallReadChanges (req : ReadChangesRequest)
| CallCreateStore (req : CreateStoreRequest)
| CallDeleteStore (req : DeleteStoreRequest)
| CallGetStore (req : GetStoreRequest)
| CallListStores (req : ListStoresRequest).

(** The error a handler returns ([None] for nil) and the final state. *)
Definition outcome {A : Type} (r : Result A * State) : option error * State :=
  match r with
  | (Ok _, st) => (None, st)
  | (Err e, st) => (Some e, st)
  end.

Definition serve (W : World) (s : Server) (ctx : Context) (c : ApiCall)
    : option error * State :=
  match c with
  | CallCheck req => outcome (Check W s ctx req init)
  | CallListObjects req => outcome (ListObjects W s ctx req init)
  | CallStreamedListObjects req => outcome (StreamedListObjects W s req ctx init)
  | CallRead req => outcome (Read W s ctx req init)
  | CallWrite req => outcome (Write W s ctx req init)
  | CallExpand req => outcome (Expand W s ctx req init)
  | CallReadAuthorizationModel req => outcome (ReadAuthorizationModel W s ctx req init)
  | CallWriteAuthorizationModel req => outcome (WriteAuthorizationModel W s ctx req init)
  | CallReadAuthorizationModels req => outcome (ReadAuthorizationModels W s ctx req init)
  | CallWriteAssertions req => outcome (WriteAssertions W s ctx req init)
  | CallReadAssertions req => outcome (ReadAssertions W s ctx req init)
  | CallReadChanges req => outcome (ReadChanges W s ctx req init)
  | CallCreateStore req => outcome (CreateStore W s ctx req init)
  | CallDeleteStore req => outcome (DeleteStore W s ctx req init)
  | CallGetStore req => outcome (GetStore W s ctx req init)
  | CallListStores req => outcome (ListStores W s ctx req init)
  end.

(** The handlers whose first statement is the call of [CheckAuthz]. *)
Definition gateFirst (c : ApiCall) : bool :=
  match c with
  | CallCheck _ | CallListObjects _ | CallStreamedListObjects _ | CallRead _
  | CallExpand _ | CallReadAuthorizationModel _ | CallWriteAuthorizationModel _
  | CallReadAuthorizationModels _ | CallWriteAssertions _ | CallReadAssertions _
  | CallReadChanges _ => true
  | CallWrite _ | CallCreateStore _ | CallDeleteStore _ | CallGetStore _
  | CallListStores _ => false
  end.

(** The events a gate leaves in the trace. *)
Definition gateEntered (ev : Event) : bool :=
  match ev with
  | EvCheckAuthz _ _ _ _ | EvCheckCreateStoreAuthz _ | EvCheckAuthzListStores _ => true
  | _ => false
  end.

(** The events of a gate: its entry and its question to the authorizer. *)
Definition gateEvent (ev : Event) : bool :=
  match ev with
  | EvCheckAuthz _ _ _ _ | EvCheckCreateStoreAuthz _ | EvCheckAuthzListStores _
  | EvAuthorize _ _ _ _ | EvAuthorizeCreateStore _ | EvListAuthorizedStores _ => true
  | _ => false
  end.

(** What the gate entered at [ev] returns, from the arguments the event
    records. *)
Definition gateVerdict (s : Server) (ev : Event) : option error :=
  match ev with
  | EvCheckAuthz ctx storeID apiMethod modules =>
      (outcome (CheckAuthz s ctx storeID apiMethod modules init)).1
  | EvCheckCreateStoreAuthz ctx => (outcome (CheckCreateStoreAuthz s ctx init)).1
  | EvCheckAuthzListStores ctx => (outcome (CheckAuthzListStores s ctx init)).1
  | _ => None
  end.

(** What the generated [Validate] of the call's request returns. *)
Definition requestValidate (W : World) (c : ApiCall) : option string :=
  match c with
  | CallCheck req => CheckRequest_Validate W req
  | CallListObjects req => ListObjectsRequest_Validate W req
  | CallStreamedListObjects req => StreamedListObjectsRequest_Validate W req
  | CallRead req => ReadRequest_Validate W req
  | CallWrite req => WriteRequest_Validate W req
  | CallExpand req => ExpandRequest_Validate W req
  | CallReadAuthorizationModel req => ReadAuthorizationModelRequest_Validate W req
  | CallWriteAuthorizationModel req => WriteAuthorizationModelRequest_Validate W req
  | CallReadAuthorizationModels req => ReadAuthorizationModelsRequest_Validate W req
  | CallWriteAssertions req => WriteAssertionsRequest_Validate W req
  | CallReadAssertions req => ReadAssertionsRequest_Validate W req
  | CallReadChanges req => ReadChangesRequest_Validate W req
  | CallCreateStore req => CreateStoreRequest_Validate W req
  | CallDeleteStore req => DeleteStoreRequest_Validate W req
  | CallGetStore req => GetStoreRequest_Validate W req
  | CallListStores req => ListStoresRequest_Validate W req
  end.

(** The consistency preference of the five query requests. *)
Definition queryConsistency (c : ApiCall) : option ConsistencyPreference :=
  match c with
  | CallCheck req => Some (check_Consistency req)
  | CallListObjects req | CallStreamedListObjects req => Some (lo_Consistency req)
  | CallRead req => Some (read_Consistency req)
  | CallExpand req => Some (expand_Consistency req)
  | _ => None
  end.


(** ** A sample deployment, to run the handlers on concrete requests *)

Module Sample.

(** [tuple.SplitObject] on "type:id": the text before and after the first
    colon (package [tuple] is not embedded; spec section 3 gives the format). *)
Fixpoint SplitObject (object : string) : string * string :=
  match object with
  | EmptyString => ("", "")
  | String c rest =>
      if bool_decide (c = ":"%char) then ("", rest)
      else let '(t, id) := SplitObject rest in (String c t, id)
  end.

Definition requireStore {A : Type} (storeId : A -> string) (what : string) (req : A)
    : option string :=
  if bool_decide (storeId req = "") then Some ("invalid " +:+ what +:+ ".StoreId") else None.

Definition world : World :=
  {| serverErrors_AuthorizationModelResolutionTooComplex :=
       errorString "Authorization Model resolution required too many rewrite rules to be resolved";
     serverErrors_ThrottledTimeout := errorString "timeout due to throttling on complex request";
     serverErrors_ValidationError := wrapError "validation error";
     serverErrors_HandleTupleValidateError := wrapError "invalid tuple";
     serverErrors_HandleError := fun public err => wrapError ("internal: " +:+ public) err;
     serverErrors_NewInternalError := fun public err => wrapError ("internal: " +:+ public) err;
     serverErrors_LatestAuthorizationModelNotFound := fun storeID =>
       errorString ("no authorization models found for store " +:+ storeID);
     serverErrors_AuthorizationModelNotFound := fun modelID =>
       errorString ("authorization model not found: " +:+ modelID);
     httpmiddleware_XHttpCode := "X-Http-Code";
     tuple_SplitObject := SplitObject;
     tuple_ConvertCheckRequestTupleKeyToTupleKey := fun tk =>
       {| tk_User := crtk_User tk; tk_Relation := crtk_Relation tk;
          tk_Object := crtk_Object tk; tk_Condition := None |};
     validation_ValidateUserObjectRelation := fun _ _ => None;
     validation_ValidateTuple := fun _ _ => None;
     CheckRequest_Validate := requireStore check_StoreId "CheckRequest";
     ListObjectsRequest_Validate := requireStore lo_StoreId "ListObjectsRequest";
     StreamedListObjectsRequest_Validate := requireStore lo_StoreId "StreamedListObjectsRequest";
     ReadRequest_Validate := requireStore read_StoreId "ReadRequest";
     WriteRequest_Validate := requireStore write_StoreId "WriteRequest";
     ExpandRequest_Validate := requireStore expand_StoreId "ExpandRequest";
     ReadAuthorizationModelRequest_Validate := requireStore ram_StoreId "ReadAuthorizationModelRequest";
     WriteAuthorizationModelRequest_Validate := requireStore wam_StoreId "WriteAuthorizationModelRequest";
     ReadAuthorizationModelsRequest_Validate := requireStore rams_StoreId "ReadAuthorizationModelsRequest";
     WriteAssertionsRequest_Validate := requireStore wa_StoreId "WriteAssertionsRequest";
     ReadAssertionsRequest_Validate := requireStore ra_StoreId "ReadAssertionsRequest";
     ReadChangesRequest_Validate := requireStore rc_StoreId "ReadChangesRequest";
     CreateStoreRequest_Validate := fun req =>
       if bool_decide (cs_Name req = "") then Some "invalid CreateStoreRequest.Name" else None;
     DeleteStoreRequest_Validate := requireStore ds_StoreId "DeleteStoreRequest";
     GetStoreRequest_Validate := requireStore gs_StoreId "GetStoreRequest";
     ListStoresRequest_Validate := fun _ => None;
     commands_NewListObjectsQuery := fun _ => None;
     ListObjectsQuery_Execute := fun _ _ => Ok {| Objects := ["document:1"] |};
     ListObjectsQuery_ExecuteStreamed := fun _ _ => Ok tt;
     ReadQuery_Execute := fun _ => Ok (protoMessage "ReadResponse");
     WriteCommand_Execute := fun _ => Ok (protoMessage "WriteResponse");
     ExpandQuery_Execute := fun _ => Ok (protoMessage "ExpandResponse");
     ReadAuthorizationModelQuery_Execute := fun _ => Ok (protoMessage "ReadAuthorizationModelResponse");
     WriteAuthorizationModelCommand_Execute := fun _ =>
       Ok (protoMessage "WriteAuthorizationModelResponse");
     ReadAuthorizationModelsQuery_Execute := fun _ =>
       Ok (protoMessage "ReadAuthorizationModelsResponse");
     WriteAssertionsCommand_Execute := fun _ => Ok (protoMessage "WriteAssertionsResponse");
     ReadAssertionsQuery_Execute := fun _ _ => Ok (protoMessage "ReadAssertionsResponse");
     ReadChangesQuery_Execute := fun _ => Ok (protoMessage "ReadChangesResponse");
     CreateStoreCommand_Execute := fun _ => Ok (protoMessage "CreateStoreResponse");
     DeleteStoreCommand_Execute := fun _ => Ok (protoMessage "DeleteStoreResponse");
     GetStoreQuery_Execute := fun _ => Ok (protoMessage "GetStoreResponse");
     ListStoresQuery_Execute := fun req =>
       Ok {| Stores :=
               [ {| store_Id := "root"; store_Name := "root-store";
                    store_CreatedAt := 1; store_UpdatedAt := 1 |};
                 {| store_Id := "test"; store_Name := "test-store";
                    store_CreatedAt := 2; store_UpdatedAt := 2 |} ];
             ContinuationToken := ls_ContinuationToken req |};
     serverconfig_DefaultResolveNodeLimit := 25;
     serverconfig_DefaultCheckDispatchThrottlingEnabled := false;
     serverconfig_DefaultCheckDispatchThrottlingDefaultThreshold := 100;
     serverconfig_DefaultListObjectsDispatchThrottlingEnabled := false;
     serverconfig_DefaultListObjectsDispatchThrottlingDefaultThreshold := 100;
     serverconfig_DefaultListObjectsDispatchThrottlingMaxThreshold := 0;
     serverconfig_DefaultListUsersDispatchThrottlingEnabled := false;
     serverconfig_DefaultListUsersDispatchThrottlingDefaultThreshold := 100;
     serverconfig_DefaultListUsersDispatchThrottlingMaxThreshold := 0;
     graph_NewOrderedCheckResolvers := fun _ req =>
       (Ok {| graph.resp_Allowed := true;
              graph.resp_ResolutionMetadata :=
                {| graph.DatastoreQueryCount := 1; graph.CycleDetected := false |} |},
        graph.RequestMetadata req);
     typesystem_MemoizedTypesystemResolverFunc := fun _ _ modelID =>
       Ok {| GetAuthorizationModelID := modelID;
             GetModuleForObjectTypeRelation := fun _ _ => Ok "" |};
     authz_NewAuthorizer := fun _ _ _ =>
       Ok {| Authorize := fun _ _ _ _ => Ok false;
             AuthorizeCreateStore := fun _ => Ok false;
             ListAuthorizedStores := fun _ => Ok [] |} |}.

(** A model with two modular types and one type without module metadata. *)
Definition typesys (modelID : string) : TypeSystem :=
  {| GetAuthorizationModelID := if bool_decide (modelID = "") then "01LATEST" else modelID;
     GetModuleForObjectTypeRelation := fun objType relation =>
       if bool_decide (objType = "document") then Ok "docs"
       else if bool_decide (objType = "wiki") then Ok "wiki"
       else if bool_decide (objType = "folder") then Ok ""
       else Err (errorString ("type not found: " +:+ objType)) |}.

(** The resolver answers by the object asked about. *)
Definition resolver : graph.CheckResolver := fun req =>
  let md := graph.RequestMetadata req in
  let throttled :=
    {| Depth := Depth md; DispatchCounter := 200; WasThrottled := true |} in
  let object := tk_Object (graph.TupleKey_ req) in
  if bool_decide (object = "document:deep") then
    (Err (wrapError "check failed" (sentinelError graph_ErrResolutionDepthExceeded)), md)
  else if bool_decide (object = "document:slow") then
    (Err (sentinelError context_DeadlineExceeded), throttled)
  else if bool_decide (object = "document:late") then
    (Err (sentinelError context_DeadlineExceeded), md)
  else
    (Ok {| graph.resp_Allowed := bool_decide (object = "document:1");
           graph.resp_ResolutionMetadata :=
             {| graph.DatastoreQueryCount := 1; graph.CycleDetected := false |} |}, md).

(** Client "admin" may call anything; everybody else is refused. *)
Definition metaAuthorizer : Authorizer :=
  {| Authorize := fun clientID _ _ _ => Ok (bool_decide (clientID = "admin"));
     AuthorizeCreateStore := fun clientID => Ok (bool_decide (clientID = "admin"));
     ListAuthorizedStores := fun clientID =>
       if bool_decide (clientID = "admin") then Ok ["root"; "test"]
       else if bool_decide (clientID = "tester") then Ok ["test"]
       else Ok [] |}.

Definition server (flags : list ExperimentalFeatureFlag) (a : option Authorizer) : Server :=
  {| datastore := Some (openFGADatastore "memory");
     resolveNodeLimit := 25;
     experimentals := flags;
     FGAOnFGA := {| fga_Enabled := bool_decide (is_Some a);
                    fga_StoreID := "root"; fga_ModelID := "01ROOT" |};
     typesystemResolver := fun _ modelID =>
       if bool_decide (modelID = "01MISSING")
       then Err (sentinelError typesystem_ErrModelNotFound)
       else Ok (typesys modelID);
     checkResolver := resolver;
     requestDurationByQueryHistogramBuckets := [50; 200]%N;
     requestDurationByDispatchCountHistogramBuckets := [50; 200]%N;
     checkDispatchThrottlingEnabled := false;
     checkDispatchThrottlingDefaultThreshold := 100;
     checkDispatchThrottlingMaxThreshold := 0;
     listObjectsDispatchThrottlingEnabled := false;
     listObjectsDispatchDefaultThreshold := 100;
     listObjectsDispatchThrottlingMaxThreshold := 0;
     listUsersDispatchThrottlingEnabled := false;
     listUsersDispatchDefaultThreshold := 100;
     listUsersDispatchThrottlingMaxThreshold := 0;
     authorizer := a |}.

Definition anonymous : Context :=
  {| AuthClaimsFromContext := None; RequestIsValidatedFromContext := false |}.

Definition client (clientID : string) : Context :=
  {| AuthClaimsFromContext := Some {| ClientID := clientID |};
     RequestIsValidatedFromContext := false |}.

Definition checkRequest (object : string) (c : ConsistencyPreference) : CheckRequest :=
  {| check_StoreId := "test";
     check_AuthorizationModelId := "01MODEL";
     check_TupleKey := {| crtk_User := "user:anne"; crtk_Relation := "viewer";
                          crtk_Object := object |};
     check_ContextualTuples := [];
     check_Context := None;
     check_Consistency := c |}.

Definition writeRequest (storeId modelId : string) (writes : list (string * string))
    (deletes : list (string * string)) : WriteRequest :=
  {| write_StoreId := storeId;
     write_AuthorizationModelId := modelId;
     write_Writes := map (fun '(object, relation) =>
       {| tk_User := "user:anne"; tk_Relation := relation; tk_Object := object;
          tk_Condition := None |}) writes;
     write_Deletes := map (fun '(object, relation) =>
       {| tkwc_User := "user:anne"; tkwc_Relation := relation; tkwc_Object := object |})
       deletes |}.

End Sample.

(** ** Reading a call *)

(** The method name a handler passes to its gate. *)
Definition apiMethod (c : ApiCall) : string :=
  match c with
  | CallCheck _ => "Check"
  | CallListObjects _ => "ListObjects"
  | CallStreamedListObjects _ => "StreamedListObjects"
  | CallRead _ => "Read"
  | CallWrite _ => "Write"
  | CallExpand _ => "Expand"
  | CallReadAuthorizationModel _ => "ReadAuthorizationModel"
  | CallWriteAuthorizationModel _ => "WriteAuthorizationModel"
  | CallReadAuthorizationModels _ => "ReadAuthorizationModels"
  | CallWriteAssertions _ => "WriteAssertions"
  | CallReadAssertions _ => "ReadAssertions"
  | CallReadChanges _ => "ReadChanges"
  | CallCreateStore _ => "CreateStore"
  | CallDeleteStore _ => "DeleteStore"
  | CallGetStore _ => "GetStore"
  | CallListStores _ => "ListStores"
  end.

(** [req.GetStoreId()], for the requests that have a store id. *)
Definition storeIdOf (c : ApiCall) : option string :=
  match c with
  | CallCheck req => Some (check_StoreId req)
  | CallListObjects req | CallStreamedListObjects req => Some (lo_StoreId req)
  | CallRead req => Some (read_StoreId req)
  | CallWrite req => Some (write_StoreId req)
  | CallExpand req => Some (expand_StoreId req)
  | CallReadAuthorizationModel req => Some (ram_StoreId req)
  | CallWriteAuthorizationModel req => Some (wam_StoreId req)
  | CallReadAuthorizationModels req => Some (rams_StoreId req)
  | CallWriteAssertions req => Some (wa_StoreId req)
  | CallReadAssertions req => Some (ra_StoreId req)
  | CallReadChanges req => Some (rc_StoreId req)
  | CallDeleteStore req => Some (ds_StoreId req)
  | CallGetStore req => Some (gs_StoreId req)
  | CallCreateStore _ | CallListStores _ => None
  end.

(** The store id and model id that the handlers with a
    [req.GetAuthorizationModelId()] hand to [resolveTypesystem]. *)
Definition requestedModel (c : ApiCall) : option (string * string) :=
  match c with
  | CallCheck req => Some (check_StoreId req, check_AuthorizationModelId req)
  | CallListObjects req | CallStreamedListObjects req =>
      Some (lo_StoreId req, lo_AuthorizationModelId req)
  | CallWrite req => Some (write_StoreId req, write_AuthorizationModelId req)
  | CallExpand req => Some (expand_StoreId req, expand_AuthorizationModelId req)
  | CallWriteAssertions req => Some (wa_StoreId req, wa_AuthorizationModelId req)
  | CallReadAssertions req => Some (ra_StoreId req, ra_AuthorizationModelId req)
  | _ => None
  end.

(** The status code a handler writes to the status-code header on success,
    for the handlers that have a [SetHeader(ctx, httpmiddleware.XHttpCode, ...)]. *)
Definition statusCodeOf (c : ApiCall) : option Z :=
  match c with
  | CallCreateStore _ | CallWriteAuthorizationModel _ => Some http.StatusCreated
  | CallDeleteStore _ | CallWriteAssertions _ => Some http.StatusNoContent
  | _ => None
  end.

(** The module the typesystem gives for the (type, relation) of a written
    tuple, as both loops of [getModulesForWriteRequest] look it up. *)
Definition writeModule (W : World) (typesys : TypeSystem) (tupleKey : TupleKey)
    : Result string :=
  GetModuleForObjectTypeRelation typesys
    (tuple_SplitObject W (tk_Object tupleKey)).1 (tk_Relation tupleKey).

Definition deleteModule (W : World) (typesys : TypeSystem)
    (tupleKey : TupleKeyWithoutCondition) : Result string :=
  GetModuleForObjectTypeRelation typesys
    (tuple_SplitObject W (tkwc_Object tupleKey)).1 (tkwc_Relation tupleKey).

(** The events of a command or of the check resolver. *)
Definition commandEvent (ev : Event) : bool :=
  match ev with
  | EvExecute _ | EvResolveCheck _ => true
  | _ => false
  end.

(** The error [resolveTypesystem] returns for an error of the resolver. *)
Definition typesystemError (W : World) (storeID modelID : string) (err : error) : error :=
  if errors.Is err typesystem_ErrModelNotFound then
    if bool_decide (modelID = "")
    then serverErrors_LatestAuthorizationModelNotFound W storeID
    else serverErrors_AuthorizationModelNotFound W modelID
  else if errors.Is err typesystem_ErrInvalidModel then serverErrors_ValidationError W err
  else serverErrors_HandleError W "" err.

(** ** The cached tuple iterator ([internal/graph/iterators.go]) *)

Module iterators.

Record cachedTuple : Set := {
  user : string;
  condition : option ProtoMessage;
  timestamp : option Z
}.

(** [openfgav1.Tuple]. *)
Record Tuple : Set := {
  Key : TupleKey;
  Timestamp : option Z
}.

Section Iterator.

(** A [storage.Iterator[cachedTuple]]: its state and its three methods.
    [Next] and [Head] return the element or an error (the end of the
    iteration is an error too) and the iterator as they leave it. *)
Context {I : Type}.
Context (iter_Next : I -> Result cachedTuple * I).
Context (iter_Head : I -> Result cachedTuple * I).
Context (iter_Stop : I -> I).

Record cachedTupleIterator : Type := {
  object : string;
  relation : string;
  iter : I
}.

(** The tuple both methods build from a cached tuple. *)
Definition tupleOf (c : cachedTupleIterator) (t : cachedTuple) : Tuple :=
  {| Key := {| tk_User := user t;
               tk_Object := object c;
               tk_Relation := relation c;
               tk_Condition := condition t |};
     Timestamp := timestamp t |}.

Definition withIter (c : cachedTupleIterator) (i : I) : cachedTupleIterator :=
  {| object := object c; relation := relation c; iter := i |}.

(** Next see [Iterator.Next]. *)
Definition Next (c : cachedTupleIterator) : Result Tuple * cachedTupleIterator :=
  match iter_Next (iter c) with
  | (Err err, i) => (Err err, withIter c i)
  | (Ok t, i) => (Ok (tupleOf c t), withIter c i)
  end.

(** Stop see [Iterator.Stop]. *)
Definition Stop (c : cachedTupleIterator) : cachedTupleIterator :=
  withIter c (iter_Stop (iter c)).

(** Head see [Iterator.Head]. *)
Definition Head (c : cachedTupleIterator) : Result Tuple * cachedTupleIterator :=
  match iter_Head (iter c) with
  | (Err err, i) => (Err err, withIter c i)
  | (Ok t, i) => (Ok (tupleOf c t), withIter c i)
  end.

End Iterator.

(** Call [next] until it fails or [fuel] calls were made: the elements read,
    the error that ended the reading if one did, and the iterator left. *)
Fixpoint drain {I T : Type} (next : I -> Result T * I) (fuel : nat) (i : I)
    : list T * option error * I :=
  match fuel with
  | O => ([], None, i)
  | S fuel' =>
      match next i with
      | (Err err, i') => ([], Some err, i')
      | (Ok t, i') =>
          let '(ts, err, i'') := drain next fuel' i' in (t :: ts, err, i'')
      end
  end.

End iterators.

(** ** Two more sample collaborators *)

Module Scenario.

(** A resolver whose condition evaluation fails. *)
Definition conditionResolver : graph.CheckResolver := fun req =>
  (Err (wrapError "failed to evaluate relationship condition"
          (sentinelError condition_ErrEvaluationFailed)),
   graph.RequestMetadata req).

(** World [W] with a list-objects query that fails with [err]. *)
Definition withFailingListObjects (W : World) (err : error) : World :=
  {| serverErrors_AuthorizationModelResolutionTooComplex := serverErrors_AuthorizationModelResolutionTooComplex W;
     serverErrors_ThrottledTimeout := serverErrors_ThrottledTimeout W;
     serverErrors_ValidationError := serverErrors_ValidationError W;
     serverErrors_HandleTupleValidateError := serverErrors_HandleTupleValidateError W;
     serverErrors_HandleError := serverErrors_HandleError W;
     serverErrors_NewInternalError := serverErrors_NewInternalError W;
     serverErrors_LatestAuthorizationModelNotFound := serverErrors_LatestAuthorizationModelNotFound W;
     serverErrors_AuthorizationModelNotFound := serverErrors_AuthorizationModelNotFound W;
     httpmiddleware_XHttpCode := httpmiddleware_XHttpCode W;
     tuple_SplitObject := tuple_SplitObject W;
     tuple_ConvertCheckRequestTupleKeyToTupleKey := tuple_ConvertCheckRequestTupleKeyToTupleKey W;
     validation_ValidateUserObjectRelation := validation_ValidateUserObjectRelation W;
     validation_ValidateTuple := validation_ValidateTuple W;
     CheckRequest_Validate := CheckRequest_Validate W;
     ListObjectsRequest_Validate := ListObjectsRequest_Validate W;
     StreamedListObjectsRequest_Validate := StreamedListObjectsRequest_Validate W;
     ReadRequest_Validate := ReadRequest_Validate W;
     WriteRequest_Validate := WriteRequest_Validate W;
     ExpandRequest_Validate := ExpandRequest_Validate W;
     ReadAuthorizationModelRequest_Validate := ReadAuthorizationModelRequest_Validate W;
     WriteAuthorizationModelRequest_Validate := WriteAuthorizationModelRequest_Validate W;
     ReadAuthorizationModelsRequest_Validate := ReadAuthorizationModelsRequest_Validate W;
     WriteAssertionsRequest_Validate := WriteAssertionsRequest_Validate W;
     ReadAssertionsRequest_Validate := ReadAssertionsRequest_Validate W;
     ReadChangesRequest_Validate := ReadChangesRequest_Validate W;
     CreateStoreRequest_Validate := CreateStoreRequest_Validate W;
     DeleteStoreRequest_Validate := DeleteStoreRequest_Validate W;
     GetStoreRequest_Validate := GetStoreRequest_Validate W;
     ListStoresRequest_Validate := ListStoresRequest_Validate W;
     commands_NewListObjectsQuery := commands_NewListObjectsQuery W;
     ListObjectsQuery_Execute := fun _ _ => Err err;
     ListObjectsQuery_ExecuteStreamed := fun _ _ => Err err;
     ReadQuery_Execute := ReadQuery_Execute W;
     WriteCommand_Execute := WriteCommand_Execute W;
     ExpandQuery_Execute := ExpandQuery_Execute W;
     ReadAuthorizationModelQuery_Execute := ReadAuthorizationModelQuery_Execute W;
     WriteAuthorizationModelCommand_Execute := WriteAuthorizationModelCommand_Execute W;
     ReadAuthorizationModelsQuery_Execute := ReadAuthorizationModelsQuery_Execute W;
     WriteAssertionsCommand_Execute := WriteAssertionsCommand_Execute W;
     ReadAssertionsQuery_Execute := ReadAssertionsQuery_Execute W;
     ReadChangesQuery_Execute := ReadChangesQuery_Execute W;
     CreateStoreCommand_Execute := CreateStoreCommand_Execute W;
     DeleteStoreCommand_Execute := DeleteStoreCommand_Execute W;
     GetStoreQuery_Execute := GetStoreQuery_Execute W;
     ListStoresQuery_Execute := ListStoresQuery_Execute W;
     serverconfig_DefaultResolveNodeLimit := serverconfig_DefaultResolveNodeLimit W;
     serverconfig_DefaultCheckDispatchThrottlingEnabled := serverconfig_DefaultCheckDispatchThrottlingEnabled W;
     serverconfig_DefaultCheckDispatchThrottlingDefaultThreshold := serverconfig_DefaultCheckDispatchThrottlingDefaultThreshold W;
     serverconfig_DefaultListObjectsDispatchThrottlingEnabled := serverconfig_DefaultListObjectsDispatchThrottlingEnabled W;
     serverconfig_DefaultListObjectsDispatchThrottlingDefaultThreshold := serverconfig_DefaultListObjectsDispatchThrottlingDefaultThreshold W;
     serverconfig_DefaultListObjectsDispatchThrottlingMaxThreshold := serverconfig_DefaultListObjectsDispatchThrottlingMaxThreshold W;
     serverconfig_DefaultListUsersDispatchThrottlingEnabled := serverconfig_DefaultListUsersDispatchThrottlingEnabled W;
     serverconfig_DefaultListUsersDispatchThrottlingDefaultThreshold := serverconfig_DefaultListUsersDispatchThrottlingDefaultThreshold W;
     serverconfig_DefaultListUsersDispatchThrottlingMaxThreshold := serverconfig_DefaultListUsersDispatchThrottlingMaxThreshold W;
     graph_NewOrderedCheckResolvers := graph_NewOrderedCheckResolvers W;
     typesystem_MemoizedTypesystemResolverFunc := typesystem_MemoizedTypesystemResolverFunc W;
     authz_NewAuthorizer := authz_NewAuthorizer W |}.

End Scenario.

(** * Properties *)

(** ** Running a handler step by step *)

(** Unfold the monad and the straight-line helpers. *)
Ltac run_unfold :=
  unfold outcome, execute, validate, check, lift, throw, record, SetHeader,
    mbind, mret, M_bind, M_ret, init in *;
  simpl in *.

(** The loop over the contextual tuples calls no collaborator that leaves a
    trace: it either fails on the first invalid tuple or returns. *)
Lemma validateContextualTuples_state (W : World) typesys tks st :
  (exists err, validateContextualTuples W typesys tks st = (Err err, st))
  \/ validateContextualTuples W typesys tks st = (Ok tt, st).
Proof.
  induction tks as [|ctxTuple rest IH]; simpl.
  - by right.
  - destruct (validation_ValidateTuple W typesys ctxTuple) as [err|]; [|exact IH].
    left. by exists (serverErrors_HandleTupleValidateError W err).
Qed.

(** Split on the innermost branch the handler under execution reaches next. *)
Ltac run_step :=
  match goal with
  | |- context [validateContextualTuples ?W ?ts ?l ?st] =>
      destruct (validateContextualTuples_state W ts l st) as [[? ->] | ->]
  | |- context [match ?x with _ => _ end] =>
      lazymatch x with
      | context [match _ with _ => _ end] => fail
      | _ => destruct x eqn:?
      end
  end; simpl in *.

Ltac run := run_unfold; repeat run_step.

(** Read what membership in a concrete trace says. *)
Ltac trace_inv H :=
  repeat (apply elem_of_cons in H as [H | H]; [try discriminate H |]);
  try (apply elem_of_nil in H; destruct H).

(** ** Resolver errors surfaced by Check *)

Section CheckErrors.

Context (W : World).

(** How [CheckWithoutAuthz] maps an error of the resolver, in the order of
    its [errors.Is] tests. *)
Lemma CheckWithoutAuthz_resolver_error s ctx req rq err md :
  EvResolveCheck rq ∈ trace (CheckWithoutAuthz W s ctx req init).2 ->
  checkResolver s rq = (Err err, md) ->
  (CheckWithoutAuthz W s ctx req init).1 =
    Err (if errors.Is err graph_ErrResolutionDepthExceeded
         then serverErrors_AuthorizationModelResolutionTooComplex W
         else if errors.Is err condition_ErrEvaluationFailed
         then serverErrors_ValidationError W err
         else if errors.Is err context_DeadlineExceeded && WasThrottled md
         then serverErrors_ThrottledTimeout W
         else serverErrors_HandleError W "" err).
Proof.
  unfold CheckWithoutAuthz, resolveTypesystem.
  intros Hin Hres. revert Hin.
  run; intros Hin; trace_inv Hin; simplify_eq; congruence.
Qed.

(** The same through the gate: [Check] adds nothing after the resolver. *)
Lemma Check_resolver_error s ctx req rq err md :
  EvResolveCheck rq ∈ trace (Check W s ctx req init).2 ->
  checkResolver s rq = (Err err, md) ->
  (Check W s ctx req init).1 =
    Err (if errors.Is err graph_ErrResolutionDepthExceeded
         then serverErrors_AuthorizationModelResolutionTooComplex W
         else if errors.Is err condition_ErrEvaluationFailed
         then serverErrors_ValidationError W err
         else if errors.Is err context_DeadlineExceeded && WasThrottled md
         then serverErrors_ThrottledTimeout W
         else serverErrors_HandleError W "" err).
Proof.
  unfold Check, CheckWithoutAuthz, CheckAuthz, resolveTypesystem.
  intros Hin Hres. revert Hin.
  run; intros Hin; trace_inv Hin; simplify_eq; congruence.
Qed.

(** C2. For every Check request, when the resolver is called and returns an
    error that is the resolution-depth-exceeded error, the server returns the
    typed "authorization model resolution too complex" error: no response
    (so no allowed=false) and not the generic handling of [HandleError].
    This holds for the RPC [Check] and for [CheckWithoutAuthz]. *)
Theorem Check_depth_exceeded_is_too_complex s ctx req rq err md :
  checkResolver s rq = (Err err, md) ->
  errors.Is err graph_ErrResolutionDepthExceeded = true ->
  (EvResolveCheck rq ∈ trace (Check W s ctx req init).2 ->
   (Check W s ctx req init).1 =
     Err (serverErrors_AuthorizationModelResolutionTooComplex W))
  /\ (EvResolveCheck rq ∈ trace (CheckWithoutAuthz W s ctx req init).2 ->
      (CheckWithoutAuthz W s ctx req init).1 =
        Err (serverErrors_AuthorizationModelResolutionTooComplex W)).
Proof.
  intros Hres Hdepth. split; intros Hin.
  - rewrite (Check_resolver_error _ _ _ _ _ _ Hin Hres). by rewrite Hdepth.
  - rewrite (CheckWithoutAuthz_resolver_error _ _ _ _ _ _ Hin Hres). by rewrite Hdepth.
Qed.

(** C3. For every Check request, when the resolver is called and returns a
    deadline-exceeded error (one that is neither the depth-exceeded nor the
    condition-evaluation error, which are tested first): if the request
    metadata's wasThrottled flag is true the server returns the typed
    "throttled timeout" error; if the flag is false the error is not mapped
    to it but handed to the generic [HandleError]. *)
Theorem Check_deadline_exceeded_throttled s ctx req rq err md :
  checkResolver s rq = (Err err, md) ->
  errors.Is err context_DeadlineExceeded = true ->
  errors.Is err graph_ErrResolutionDepthExceeded = false ->
  errors.Is err condition_ErrEvaluationFailed = false ->
  EvResolveCheck rq ∈ trace (Check W s ctx req init).2 ->
  (WasThrottled md = true ->
   (Check W s ctx req init).1 = Err (serverErrors_ThrottledTimeout W))
  /\ (WasThrottled md = false ->
      (Check W s ctx req init).1 = Err (serverErrors_HandleError W "" err)).
Proof.
  intros Hres Hdeadline Hdepth Heval Hin.
  rewrite (Check_resolver_error _ _ _ _ _ _ Hin Hres), Hdepth, Heval, Hdeadline.
  split; intros ->; done.
Qed.

End CheckErrors.

(** C2 on the sample deployment: the resolver wraps the depth error. *)
Lemma Check_depth_exceeded_is_too_complex_witness :
  (Check Sample.world (Sample.server [] (Some Sample.metaAuthorizer))
     (Sample.client "admin") (Sample.checkRequest "document:deep" 0%Z) init).1 =
    Err (serverErrors_AuthorizationModelResolutionTooComplex Sample.world).
Proof.
  set (s := Sample.server [] (Some Sample.metaAuthorizer)).
  set (req := Sample.checkRequest "document:deep" 0%Z).
  set (rq := {| graph.StoreID := "test";
                graph.AuthorizationModelID := "01MODEL";
                graph.TupleKey_ :=
                  {| tk_User := "user:anne"; tk_Relation := "viewer";
                     tk_Object := "document:deep"; tk_Condition := None |};
                graph.ContextualTuples := [];
                graph.Context_ := None;
                graph.RequestMetadata := graph.NewCheckRequestMetadata 25;
                graph.Consistency := 0%Z |}).
  apply (Check_depth_exceeded_is_too_complex Sample.world s (Sample.client "admin") req rq
           (wrapError "check failed" (sentinelError graph_ErrResolutionDepthExceeded))
           (graph.NewCheckRequestMetadata 25)).
  - reflexivity.
  - reflexivity.
  - vm_compute. repeat constructor.
Defined.

(** C3 on the sample deployment: a throttled request that ran out of time. *)
Lemma Check_deadline_exceeded_throttled_witness :
  (Check Sample.world (Sample.server [] None) Sample.anonymous
     (Sample.checkRequest "document:slow" 0%Z) init).1 =
    Err (serverErrors_ThrottledTimeout Sample.world).
Proof.
  set (rq := {| graph.StoreID := "test";
                graph.AuthorizationModelID := "01MODEL";
                graph.TupleKey_ :=
                  {| tk_User := "user:anne"; tk_Relation := "viewer";
                     tk_Object := "document:slow"; tk_Condition := None |};
                graph.ContextualTuples := [];
                graph.Context_ := None;
                graph.RequestMetadata := graph.NewCheckRequestMetadata 25;
                graph.Consistency := 0%Z |}).
  apply (Check_deadline_exceeded_throttled Sample.world (Sample.server [] None)
           Sample.anonymous (Sample.checkRequest "document:slow" 0%Z) rq
           (sentinelError context_DeadlineExceeded)
           {| Depth := 25; DispatchCounter := 200; WasThrottled := true |}).
  - reflexivity.
  - reflexivity.
  - reflexivity.
  - reflexivity.
  - vm_compute. repeat constructor.
  - reflexivity.
Defined.

(** ** The authorization gate *)

Ltac handlers_unfold :=
  unfold serve, Check, CheckWithoutAuthz, ListObjects, ListObjectsWithoutAuthz,
    StreamedListObjects, Read, Write, Expand, ReadAuthorizationModel,
    WriteAuthorizationModel, ReadAuthorizationModels, WriteAssertions,
    ReadAssertions, ReadChanges, CreateStore, DeleteStore, GetStore, ListStores,
    CheckAuthz, CheckCreateStoreAuthz, CheckAuthzListStores, resolveTypesystem in *.

Section Gate.

Context (W : World).



(** The handlers that start with the gate enter it on every call. *)
Lemma gate_first_entered s ctx c :
  gateFirst c = true ->
  exists ev, head (trace (serve W s ctx c).2) = Some ev /\ gateEntered ev = true.
Proof.
  destruct c; try done; intros _; handlers_unfold; run_unfold.
  all: repeat run_step.
  all: eexists; split; [reflexivity | done].
Qed.


End Gate.


(** ** Which error wins: the gate's or the handler's *)

Section Precedence.

Context (W : World).

(** Once a gate is entered and fails, its error is the call's error and the
    trace ends with the gate. *)
Lemma gate_error_returned s ctx c ev e :
  ev ∈ trace (serve W s ctx c).2 ->
  gateVerdict s ev = Some e ->
  (serve W s ctx c).1 = Some e
  /\ exists ev', last (trace (serve W s ctx c).2) = Some ev' /\ gateEvent ev' = true.
Proof.
  destruct c; handlers_unfold; run_unfold.
  all: repeat run_step.
  all: intros Hin Hv; trace_inv Hin; simplify_eq; try done.
  all: unfold gateVerdict in Hv; handlers_unfold; run_unfold.
  all: repeat (case_match; simplify_eq/=); try congruence.
  all: split; [done | eexists; split; [reflexivity | done]].
Qed.

(** In the handlers that validate before the gate, a request that fails
    validation is answered without entering the gate. *)
Lemma validation_precedes_gate s ctx c msg :
  gateFirst c = false ->
  RequestIsValidatedFromContext ctx = false ->
  requestValidate W c = Some msg ->
  (serve W s ctx c).1 = Some (status.Error codes.InvalidArgument msg)
  /\ forall ev, ev ∈ trace (serve W s ctx c).2 -> gateEntered ev = false.
Proof.
  destruct c; try done; intros _ Hv Hmsg; simpl in Hmsg;
    handlers_unfold; run_unfold; rewrite Hv, Hmsg; simpl.
  all: split; [done | intros ev Hin; trace_inv Hin; by simplify_eq].
Qed.

(** In [Write], a failure to resolve the typesystem or to extract the
    modules is returned without entering the gate. *)
Lemma Write_resolution_precedes_gate s ctx req :
  (forall err, typesystemResolver s (write_StoreId req) (write_AuthorizationModelId req) = Err err ->
     (serve W s ctx (CallWrite req)).1 <> None
     /\ forall ev, ev ∈ trace (serve W s ctx (CallWrite req)).2 -> gateEntered ev = false)
  /\ (forall typesys err,
        fgaOnFgaIsEnabled s = true -> is_Some (authorizer s) ->
        typesystemResolver s (write_StoreId req) (write_AuthorizationModelId req) = Ok typesys ->
        getModulesForWriteRequest W s req typesys = Err err ->
        (serve W s ctx (CallWrite req)).1 <> None
        /\ forall ev, ev ∈ trace (serve W s ctx (CallWrite req)).2 -> gateEntered ev = false).
Proof.
  split.
  - intros err Hts. handlers_unfold; run_unfold; rewrite Hts.
    repeat run_step.
    all: split; [done | intros ev Hin; trace_inv Hin; by simplify_eq].
  - intros typesys err Hfga Ha Hts Hmods. handlers_unfold; run_unfold; rewrite Hts; simpl.
    rewrite Hfga, (bool_decide_eq_true_2 _ Ha), Hmods; simpl.
    repeat run_step.
    all: split; [done | intros ev Hin; trace_inv Hin; by simplify_eq].
Qed.

(** C5 (amended). A gate that is entered and fails decides the call: its
    error is returned and nothing runs after it.  The handlers that begin
    with the gate (Check, ListObjects, StreamedListObjects, Read, Expand,
    ReadAuthorizationModel, WriteAuthorizationModel, ReadAuthorizationModels,
    WriteAssertions, ReadAssertions, ReadChanges) enter it before anything
    else.  Write, CreateStore, DeleteStore, GetStore and ListStores validate
    the request first, and Write also resolves the typesystem and extracts
    the modules (when FGA-on-FGA is enabled) first: a failure of one of these
    steps is returned without entering the gate. *)
Theorem gate_error_precedence s ctx c :
  (forall ev e, ev ∈ trace (serve W s ctx c).2 -> gateVerdict s ev = Some e ->
     (serve W s ctx c).1 = Some e
     /\ exists ev', last (trace (serve W s ctx c).2) = Some ev' /\ gateEvent ev' = true)
  /\ (gateFirst c = true ->
      exists ev, head (trace (serve W s ctx c).2) = Some ev /\ gateEntered ev = true)
  /\ (gateFirst c = false -> RequestIsValidatedFromContext ctx = false ->
      forall msg, requestValidate W c = Some msg ->
        (serve W s ctx c).1 = Some (status.Error codes.InvalidArgument msg)
        /\ forall ev, ev ∈ trace (serve W s ctx c).2 -> gateEntered ev = false)
  /\ (forall req, c = CallWrite req ->
      (forall err,
         typesystemResolver s (write_StoreId req) (write_AuthorizationModelId req) = Err err ->
         (serve W s ctx c).1 <> None
         /\ forall ev, ev ∈ trace (serve W s ctx c).2 -> gateEntered ev = false)
      /\ (forall typesys err,
            fgaOnFgaIsEnabled s = true -> is_Some (authorizer s) ->
            typesystemResolver s (write_StoreId req) (write_AuthorizationModelId req) = Ok typesys ->
            getModulesForWriteRequest W s req typesys = Err err ->
            (serve W s ctx c).1 <> None
            /\ forall ev, ev ∈ trace (serve W s ctx c).2 -> gateEntered ev = false)).
Proof.
  split; [|split; [|split]].
  - intros ev e. apply gate_error_returned.
  - apply gate_first_entered.
  - intros Hg Hv msg Hmsg. by apply validation_precedes_gate.
  - intros req ->. apply Write_resolution_precedes_gate.
Qed.

End Precedence.

(** C5 as stated fails for Write: the client below is refused by the gate
    whatever the modules, yet the error the call returns is the one of the
    typesystem resolution (an unknown model id), respectively the one of the
    request validation (an empty store id); the gate is not entered. *)
Lemma Write_error_surfaces_before_gate :
  let s := Sample.server [ExperimentalFGAOnFGAParams] (Some Sample.metaAuthorizer) in
  let ctx := Sample.client "mallory" in
  let denied := status.Error codes.PermissionDenied "permission denied" in
  (forall modules, gateVerdict s (EvCheckAuthz ctx "test" "Write" modules) = Some denied)
  /\ serve Sample.world s ctx
       (CallWrite (Sample.writeRequest "test" "01MISSING" [("document:1", "viewer")] [])) =
     (Some (serverErrors_AuthorizationModelNotFound Sample.world "01MISSING"),
      {| headers := [];
         trace := [EvValidate "Write"; EvResolveTypesystem "test" "01MISSING"] |})
  /\ serverErrors_AuthorizationModelNotFound Sample.world "01MISSING" <> denied
  /\ serve Sample.world s ctx
       (CallWrite (Sample.writeRequest "" "01MODEL" [("document:1", "viewer")] [])) =
     (Some (status.Error codes.InvalidArgument "invalid WriteRequest.StoreId"),
      {| headers := []; trace := [EvValidate "Write"] |})
  /\ status.Error codes.InvalidArgument "invalid WriteRequest.StoreId" <> denied.
Proof.
  cbv zeta. split; [|split; [|split; [|split]]].
  - intros modules. reflexivity.
  - vm_compute. reflexivity.
  - discriminate.
  - vm_compute. reflexivity.
  - discriminate.
Qed.

(** C5 (amended) on the sample deployment: DeleteStore by a refused client
    returns the gate's error after the validation, and the same call with an
    empty store id returns the validation error without entering the gate. *)
Lemma gate_error_precedence_witness :
  let s := Sample.server [ExperimentalFGAOnFGAParams] (Some Sample.metaAuthorizer) in
  let ctx := Sample.client "mallory" in
  (serve Sample.world s ctx (CallDeleteStore {| ds_StoreId := "test" |})).1 =
    Some (status.Error codes.PermissionDenied "permission denied")
  /\ (serve Sample.world s ctx (CallDeleteStore {| ds_StoreId := "" |})).1 =
       Some (status.Error codes.InvalidArgument "invalid DeleteStoreRequest.StoreId").
Proof.
  cbv zeta.
  set (s := Sample.server [ExperimentalFGAOnFGAParams] (Some Sample.metaAuthorizer)).
  set (ctx := Sample.client "mallory").
  split.
  - destruct (gate_error_precedence Sample.world s ctx
                (CallDeleteStore {| ds_StoreId := "test" |})) as (Hgate & _).
    apply (Hgate (EvCheckAuthz ctx "test" "DeleteStore" [])).
    + vm_compute. repeat constructor.
    + reflexivity.
  - destruct (gate_error_precedence Sample.world s ctx
                (CallDeleteStore {| ds_StoreId := "" |})) as (_ & _ & Hval & _).
    apply Hval; reflexivity.
Defined.

(** ** Consistency preference *)

Section Consistency.

Context (W : World).

(** The three cases of [validateConsistencyRequest]. *)
Lemma validateConsistencyRequest_cases s c :
  validateConsistencyRequest s ConsistencyPreference_UNSPECIFIED = None
  /\ (IsExperimentallyEnabled s ExperimentalEnableConsistencyParams = true ->
      validateConsistencyRequest s c = None)
  /\ (IsExperimentallyEnabled s ExperimentalEnableConsistencyParams = false ->
      c <> ConsistencyPreference_UNSPECIFIED ->
      exists msg, validateConsistencyRequest s c = Some (status.Error codes.InvalidArgument msg)).
Proof.
  unfold validateConsistencyRequest. split; [|split].
  - rewrite bool_decide_eq_true_2 by done. by rewrite andb_false_r.
  - by intros ->.
  - intros -> Hc. rewrite bool_decide_eq_false_2 by done. simpl. by eexists.
Qed.

(** A query whose preference is refused fails before its handler has done
    anything but pass the gate. *)
Lemma refused_consistency_stops_query s ctx c pref e :
  queryConsistency c = Some pref ->
  validateConsistencyRequest s pref = Some e ->
  (serve W s ctx c).1 <> None
  /\ Forall (fun ev => gateEvent ev = true) (trace (serve W s ctx c).2)
  /\ (authorizer s = None -> (serve W s ctx c).1 = Some e).
Proof.
  destruct c; try done; intros [= <-] Hv; handlers_unfold; run_unfold; rewrite Hv.
  all: repeat run_step.
  all: split; [done | split; [by repeat constructor | by intros ?; simplify_eq]].
Qed.

(** [Check] hands the request's preference to the resolver as it came. *)
Lemma Check_forwards_consistency s ctx req rq :
  EvResolveCheck rq ∈ trace (serve W s ctx (CallCheck req)).2 ->
  graph.Consistency rq = check_Consistency req.
Proof.
  handlers_unfold; run_unfold.
  repeat run_step.
  all: intros Hin; trace_inv Hin; by simplify_eq.
Qed.

(** C4 (amended). For every query request (Check, ListObjects,
    StreamedListObjects, Expand, Read): UNSPECIFIED passes the consistency
    validation; when the enable-consistency-params flag is enabled every
    value passes; when it is not, every other value, HIGHER_CONSISTENCY
    included, is refused with an invalid-argument error, and the call fails
    having run nothing but the gate.  A preference that reaches the check
    resolver is the one of the request, unchanged. *)
Theorem consistency_preference_validation s ctx c pref :
  queryConsistency c = Some pref ->
  validateConsistencyRequest s ConsistencyPreference_UNSPECIFIED = None
  /\ (IsExperimentallyEnabled s ExperimentalEnableConsistencyParams = true ->
      validateConsistencyRequest s pref = None)
  /\ (IsExperimentallyEnabled s ExperimentalEnableConsistencyParams = false ->
      pref <> ConsistencyPreference_UNSPECIFIED ->
      exists msg,
        validateConsistencyRequest s pref = Some (status.Error codes.InvalidArgument msg)
        /\ (serve W s ctx c).1 <> None
        /\ Forall (fun ev => gateEvent ev = true) (trace (serve W s ctx c).2)
        /\ (authorizer s = None ->
            (serve W s ctx c).1 = Some (status.Error codes.InvalidArgument msg)))
  /\ (forall req rq, c = CallCheck req ->
      EvResolveCheck rq ∈ trace (serve W s ctx c).2 ->
      graph.Consistency rq = pref).
Proof.
  intros Hq.
  destruct (validateConsistencyRequest_cases s pref) as (Hu & Hon & Hoff).
  split; [done | split; [done | split]].
  - intros Hflag Hpref. destruct (Hoff Hflag Hpref) as [msg Hmsg].
    exists msg. split; [done |].
    by eapply refused_consistency_stops_query.
  - intros req rq -> Hin. simpl in Hq. injection Hq as <-.
    by eapply Check_forwards_consistency.
Qed.

End Consistency.

(** C4 as stated fails: without the flag a Check that asks for
    HIGHER_CONSISTENCY is refused with an invalid-argument error, and neither
    the resolver nor anything else behind the validation is reached. *)
Lemma higher_consistency_refused_without_flag :
  serve Sample.world (Sample.server [] None) Sample.anonymous
    (CallCheck (Sample.checkRequest "document:1" ConsistencyPreference_HIGHER_CONSISTENCY)) =
  (Some (status.Error codes.InvalidArgument
     "Consistency parameters are not enabled. They can be enabled for experimental use by passing the `--experimentals enable-consistency-params` configuration option when running OpenFGA server"),
   {| headers := [];
      trace := [EvCheckAuthz Sample.anonymous "test" "Check" []] |}).
Proof. vm_compute. reflexivity. Qed.

(** C4 (amended) on the sample deployment: HIGHER_CONSISTENCY is refused
    without the flag. *)
Lemma consistency_preference_validation_witness :
  exists msg,
    (serve Sample.world (Sample.server [] None) Sample.anonymous
       (CallCheck (Sample.checkRequest "document:1" ConsistencyPreference_HIGHER_CONSISTENCY))).1
    = Some (status.Error codes.InvalidArgument msg).
Proof.
  destruct (consistency_preference_validation Sample.world (Sample.server [] None)
              Sample.anonymous
              (CallCheck (Sample.checkRequest "document:1" ConsistencyPreference_HIGHER_CONSISTENCY))
              ConsistencyPreference_HIGHER_CONSISTENCY eq_refl) as (_ & _ & Hoff & _).
  destruct Hoff as (msg & _ & _ & _ & Hres); [reflexivity | discriminate |].
  exists msg. apply Hres. reflexivity.
Defined.

(** ** Modules of a write request *)

(** C6. The code extracts the modules of a write batch, but its fallback to
    the store-scoped check covers the writes only.  On the sample model
    ("document" is in module "docs", "folder" has no module): a batch that
    writes a document tuple and deletes a folder tuple yields the modules
    ["docs"], and [Write] asks the authorizer about ["docs"], although a
    touched (type, relation) has no module; the same folder tuple among the
    writes yields the empty list. *)
Theorem getModulesForWriteRequest_delete_without_module :
  let s := Sample.server [ExperimentalFGAOnFGAParams] (Some Sample.metaAuthorizer) in
  let typesys := Sample.typesys "01MODEL" in
  let batch := Sample.writeRequest "test" "01MODEL"
                 [("document:1", "viewer")] [("folder:1", "viewer")] in
  GetModuleForObjectTypeRelation typesys "folder" "viewer" = Ok ""
  /\ getModulesForWriteRequest Sample.world s batch typesys = Ok ["docs"]
  /\ EvAuthorize "admin" "test" "Write" ["docs"]
       ∈ trace (serve Sample.world s (Sample.client "admin") (CallWrite batch)).2
  /\ getModulesForWriteRequest Sample.world s
       (Sample.writeRequest "test" "01MODEL"
          [("document:1", "viewer"); ("folder:1", "viewer")] []) typesys = Ok [].
Proof.
  cbv zeta. split; [|split; [|split]].
  - reflexivity.
  - vm_compute. reflexivity.
  - vm_compute. repeat constructor.
  - vm_compute. reflexivity.
Qed.

(** ** ListStores *)

(** The keys of [storesMap] are the authorized store ids. *)
Lemma elem_of_storesMapOf (stores : list string) (x : string) :
  x ∈ storesMapOf (Some stores) <-> x ∈ stores.
Proof.
  unfold storesMapOf. simpl.
  assert (forall acc : gset string,
            x ∈ foldl (fun storesMap store => {[store]} ∪ storesMap) acc stores
            <-> x ∈ acc \/ x ∈ stores) as Hfold.
  { induction stores as [|store rest IH]; intros acc; simpl.
    - rewrite elem_of_nil. tauto.
    - rewrite IH, elem_of_cons, elem_of_union, elem_of_singleton. tauto. }
  rewrite Hfold, elem_of_empty. tauto.
Qed.

(** A filter that nothing passes returns the empty list. *)
Lemma filter_nothing {A : Type} (P : A -> Prop) `{!forall x, Decision (P x)} (l : list A) :
  (forall x, ~ P x) -> filter P l = [].
Proof.
  intros HP. induction l as [|x rest IH]; [done |].
  by rewrite filter_cons_False.
Qed.

Section Stores.

Context (W : World).

(** C7. With the authorizer enabled, a ListStores request whose client has
    claims is answered from [ListAuthorizedStores], not refused: the Stores
    of the response are the page of the underlying query filtered to the
    authorized ids (whatever that list holds, the empty list included), and
    the continuation token of the query is returned unchanged.  No error that
    ListStores returns is made by a "not authorized" branch: it is the
    validation error, the missing-claims error, or an error handed up from
    [ListAuthorizedStores] or from the query. *)
Theorem ListStores_filters_to_authorized s ctx req a :
  authorizer s = Some a ->
  (forall claims authorized resp,
     AuthClaimsFromContext ctx = Some claims ->
     ListAuthorizedStores a (ClientID claims) = Ok authorized ->
     RequestIsValidatedFromContext ctx = true \/ ListStoresRequest_Validate W req = None ->
     ListStoresQuery_Execute W req = Ok resp ->
     (ListStores W s ctx req init).1 =
       Ok {| Stores := filter (fun store => store_Id store ∈ authorized) (Stores resp);
             ContinuationToken := ContinuationToken resp |})
  /\ (forall e, (ListStores W s ctx req init).1 = Err e ->
      (exists msg, ListStoresRequest_Validate W req = Some msg
                   /\ e = status.Error codes.InvalidArgument msg)
      \/ e = status.Error codes.Internal "client ID not found in context"
      \/ (exists claims, AuthClaimsFromContext ctx = Some claims
                         /\ ListAuthorizedStores a (ClientID claims) = Err e)
      \/ ListStoresQuery_Execute W req = Err e).
Proof.
  intros Ha. split.
  - intros claims authorized resp Hc Hl Hv Hq.
    unfold ListStores, CheckAuthzListStores. rewrite Ha, Hc. run_unfold. rewrite Hl, Hq.
    assert (forall st,
      (if RequestIsValidatedFromContext ctx then fun st => (Ok (), st)
       else fun st =>
         match ListStoresRequest_Validate W req with
         | Some msg => fun st0 => (Err (status.Error codes.InvalidArgument msg), st0)
         | None => fun st0 => (Ok (), st0)
         end {| headers := headers st; trace := trace st ++ [EvValidate "ListStores"] |}) st
      = (Ok (), if RequestIsValidatedFromContext ctx then st
                else {| headers := headers st; trace := trace st ++ [EvValidate "ListStores"] |}))
      as Hvalid.
    { intros st. destruct Hv as [-> | Hv]; [done |].
      rewrite Hv. by destruct (RequestIsValidatedFromContext ctx). }
    rewrite Hvalid. simpl. f_equal. f_equal.
    apply list_filter_iff. intros store. apply elem_of_storesMapOf.
  - intros e. unfold ListStores, CheckAuthzListStores. rewrite Ha. run_unfold.
    repeat run_step.
    all: intros [= <-]; eauto 8.
Qed.

(** C10. Without an authorizer, [CheckAuthzListStores] returns the nil list
    and no error, and ListStores answers with an empty Stores list whatever
    page the underlying query returned, and with the query's continuation
    token unchanged. *)
Theorem ListStores_without_authorizer_is_empty s ctx req :
  authorizer s = None ->
  (forall st, (CheckAuthzListStores s ctx st).1 = Ok None)
  /\ (forall resp,
        RequestIsValidatedFromContext ctx = true \/ ListStoresRequest_Validate W req = None ->
        ListStoresQuery_Execute W req = Ok resp ->
        (ListStores W s ctx req init).1 =
          Ok {| Stores := []; ContinuationToken := ContinuationToken resp |}).
Proof.
  intros Ha. split.
  - intros st. unfold CheckAuthzListStores. by rewrite Ha.
  - intros resp Hv Hq. unfold ListStores, CheckAuthzListStores. rewrite Ha. run_unfold.
    rewrite Hq. destruct Hv as [-> | ->]; simpl.
    + rewrite filter_nothing; [done | intros store; apply not_elem_of_empty].
    + destruct (RequestIsValidatedFromContext ctx); simpl;
        (rewrite filter_nothing; [done | intros store; apply not_elem_of_empty]).
Qed.

End Stores.

(** C7 on the sample deployment: client "tester" may see store "test" only,
    client "mallory" none; neither is refused. *)
Lemma ListStores_filters_to_authorized_witness :
  let s := Sample.server [ExperimentalFGAOnFGAParams] (Some Sample.metaAuthorizer) in
  let req := {| ls_PageSize := None; ls_ContinuationToken := "next" |} in
  (ListStores Sample.world s (Sample.client "tester") req init).1 =
    Ok {| Stores := [ {| store_Id := "test"; store_Name := "test-store";
                         store_CreatedAt := 2; store_UpdatedAt := 2 |} ];
          ContinuationToken := "next" |}
  /\ (ListStores Sample.world s (Sample.client "mallory") req init).1 =
       Ok {| Stores := []; ContinuationToken := "next" |}.
Proof.
  cbv zeta.
  set (s := Sample.server [ExperimentalFGAOnFGAParams] (Some Sample.metaAuthorizer)).
  set (req := {| ls_PageSize := None; ls_ContinuationToken := "next" |}).
  split.
  - destruct (ListStores_filters_to_authorized Sample.world s (Sample.client "tester") req
                Sample.metaAuthorizer eq_refl) as [Hpage _].
    rewrite (Hpage {| ClientID := "tester" |} ["test"]
               {| Stores := [ {| store_Id := "root"; store_Name := "root-store";
                                 store_CreatedAt := 1; store_UpdatedAt := 1 |};
                              {| store_Id := "test"; store_Name := "test-store";
                                 store_CreatedAt := 2; store_UpdatedAt := 2 |} ];
                  ContinuationToken := "next" |}
               eq_refl eq_refl (or_intror eq_refl) eq_refl).
    vm_compute. reflexivity.
  - destruct (ListStores_filters_to_authorized Sample.world s (Sample.client "mallory") req
                Sample.metaAuthorizer eq_refl) as [Hpage _].
    rewrite (Hpage {| ClientID := "mallory" |} []
               {| Stores := [ {| store_Id := "root"; store_Name := "root-store";
                                 store_CreatedAt := 1; store_UpdatedAt := 1 |};
                              {| store_Id := "test"; store_Name := "test-store";
                                 store_CreatedAt := 2; store_UpdatedAt := 2 |} ];
                  ContinuationToken := "next" |}
               eq_refl eq_refl (or_intror eq_refl) eq_refl).
    vm_compute. reflexivity.
Defined.

(** C10 on the sample deployment: the query returns two stores, the
    response none. *)
Lemma ListStores_without_authorizer_is_empty_witness :
  (ListStores Sample.world (Sample.server [] None) Sample.anonymous
     {| ls_PageSize := None; ls_ContinuationToken := "next" |} init).1 =
    Ok {| Stores := []; ContinuationToken := "next" |}.
Proof.
  destruct (ListStores_without_authorizer_is_empty Sample.world (Sample.server [] None)
              Sample.anonymous {| ls_PageSize := None; ls_ContinuationToken := "next" |}
              eq_refl) as [_ Hempty].
  apply (Hempty
           {| Stores := [ {| store_Id := "root"; store_Name := "root-store";
                             store_CreatedAt := 1; store_UpdatedAt := 1 |};
                          {| store_Id := "test"; store_Name := "test-store";
                             store_CreatedAt := 2; store_UpdatedAt := 2 |} ];
              ContinuationToken := "next" |}).
  - right. reflexivity.
  - reflexivity.
Defined.

(** ** Status-code headers *)

Lemma Itoa_StatusCreated : strconv.Itoa http.StatusCreated = "201".
Proof. vm_compute. reflexivity. Qed.

Lemma Itoa_StatusNoContent : strconv.Itoa http.StatusNoContent = "204".
Proof. vm_compute. reflexivity. Qed.

Section StatusCode.

Context (W : World).

(** C8 (amended). On success CreateStore and WriteAuthorizationModel write
    the status-code header 201, and DeleteStore and WriteAssertions write 204
    (WriteAssertions after the model-id header of the typesystem
    resolution).  The tuple Write writes no status-code header: the only
    header of a successful Write is the model-id header. *)
Theorem status_code_header_on_success s ctx :
  (forall req res st, CreateStore W s ctx req init = (Ok res, st) ->
     headers st = [(httpmiddleware_XHttpCode W, "201")])
  /\ (forall req res st, WriteAuthorizationModel W s ctx req init = (Ok res, st) ->
      headers st = [(httpmiddleware_XHttpCode W, "201")])
  /\ (forall req res st, DeleteStore W s ctx req init = (Ok res, st) ->
      headers st = [(httpmiddleware_XHttpCode W, "204")])
  /\ (forall req res st, WriteAssertions W s ctx req init = (Ok res, st) ->
      exists typesys,
        typesystemResolver s (wa_StoreId req) (wa_AuthorizationModelId req) = Ok typesys
        /\ headers st = [(AuthorizationModelIDHeader, GetAuthorizationModelID typesys);
                         (httpmiddleware_XHttpCode W, "204")])
  /\ (forall req res st, Write W s ctx req init = (Ok res, st) ->
      exists typesys,
        typesystemResolver s (write_StoreId req) (write_AuthorizationModelId req) = Ok typesys
        /\ headers st = [(AuthorizationModelIDHeader, GetAuthorizationModelID typesys)]).
Proof.
  rewrite <- Itoa_StatusCreated, <- Itoa_StatusNoContent.
  split; [|split; [|split; [|split]]]; intros req res st; handlers_unfold; run_unfold.
  all: repeat run_step.
  all: intros ?; simplify_eq/=; eauto.
Qed.

End StatusCode.

(** C8 as stated fails for the tuple Write: a successful Write on the sample
    deployment leaves the model-id header only, no status-code header. *)
Lemma Write_sets_no_status_code_header :
  let run := Write Sample.world (Sample.server [] None) Sample.anonymous
               (Sample.writeRequest "test" "01MODEL" [("document:1", "viewer")] []) init in
  run.1 = Ok (protoMessage "WriteResponse")
  /\ headers run.2 = [("Openfga-Authorization-Model-Id", "01MODEL")]
  /\ forall code, (httpmiddleware_XHttpCode Sample.world, code) ∉ headers run.2.
Proof.
  cbv zeta. split; [|split].
  - vm_compute. reflexivity.
  - vm_compute. reflexivity.
  - intros code Hin. vm_compute in Hin. trace_inv Hin.
Qed.

(** C8 (amended) on the sample deployment: DeleteStore writes 204. *)
Lemma status_code_header_on_success_witness :
  headers (DeleteStore Sample.world (Sample.server [] None) Sample.anonymous
             {| ds_StoreId := "test" |} init).2 = [("X-Http-Code", "204")].
Proof.
  destruct (status_code_header_on_success Sample.world (Sample.server [] None)
              Sample.anonymous) as (_ & _ & Hdelete & _).
  apply (Hdelete {| ds_StoreId := "test" |} (protoMessage "DeleteStoreResponse")).
  vm_compute. reflexivity.
Defined.

(** ** Dispatch-throttling thresholds *)

Section Thresholds.

Context (W : World).

(** C9 (amended). [NewServerWithOpts] fails whenever the ListObjects or the
    ListUsers configuration has maxThreshold <> 0 and defaultThreshold >
    maxThreshold; for Check it fails on that condition only when Check
    dispatch throttling is enabled.  When the datastore and the histogram
    buckets are given and each configuration has default <= max or max = 0
    (or, for Check, throttling disabled), construction passes these checks
    and goes on to build the resources. *)
Theorem NewServerWithOpts_threshold_validation opts :
  let s := configure W opts in
  (listObjectsDispatchThrottlingMaxThreshold s <> 0%N ->
   (listObjectsDispatchThrottlingMaxThreshold s < listObjectsDispatchDefaultThreshold s)%N ->
   exists err, NewServerWithOpts W opts = Err err)
  /\ (listUsersDispatchThrottlingMaxThreshold s <> 0%N ->
      (listUsersDispatchThrottlingMaxThreshold s < listUsersDispatchDefaultThreshold s)%N ->
      exists err, NewServerWithOpts W opts = Err err)
  /\ (checkDispatchThrottlingEnabled s = true ->
      checkDispatchThrottlingMaxThreshold s <> 0%N ->
      (checkDispatchThrottlingMaxThreshold s < checkDispatchThrottlingDefaultThreshold s)%N ->
      exists err, NewServerWithOpts W opts = Err err)
  /\ (datastore s <> None ->
      requestDurationByQueryHistogramBuckets s <> [] ->
      requestDurationByDispatchCountHistogramBuckets s <> [] ->
      checkDispatchThrottlingEnabled s = false
      \/ checkDispatchThrottlingMaxThreshold s = 0%N
      \/ (checkDispatchThrottlingDefaultThreshold s <= checkDispatchThrottlingMaxThreshold s)%N ->
      listObjectsDispatchThrottlingMaxThreshold s = 0%N
      \/ (listObjectsDispatchDefaultThreshold s <= listObjectsDispatchThrottlingMaxThreshold s)%N ->
      listUsersDispatchThrottlingMaxThreshold s = 0%N
      \/ (listUsersDispatchDefaultThreshold s <= listUsersDispatchThrottlingMaxThreshold s)%N ->
      NewServerWithOpts W opts = buildResources W s).
Proof.
  cbv zeta. unfold NewServerWithOpts. set (s := configure W opts).
  split; [|split; [|split]].
  - intros Hmax Hlt.
    apply N.eqb_neq in Hmax. apply N.ltb_lt in Hlt. rewrite Hmax, Hlt. simpl.
    repeat case_match; eauto.
  - intros Hmax Hlt.
    apply N.eqb_neq in Hmax. apply N.ltb_lt in Hlt. rewrite Hmax, Hlt. simpl.
    repeat case_match; eauto.
  - intros Hen Hmax Hlt.
    apply N.eqb_neq in Hmax. apply N.ltb_lt in Hlt. rewrite Hen, Hmax, Hlt. simpl.
    repeat case_match; eauto.
  - intros Hds Hb1 Hb2 Hc Hlo Hlu.
    rewrite (bool_decide_eq_false_2 _ Hds).
    rewrite bool_decide_eq_false_2 by (by destruct (requestDurationByQueryHistogramBuckets s)).
    rewrite bool_decide_eq_false_2
      by (by destruct (requestDurationByDispatchCountHistogramBuckets s)).
    assert (checkDispatchThrottlingEnabled s
            && negb (checkDispatchThrottlingMaxThreshold s =? 0)%N
            && (checkDispatchThrottlingMaxThreshold s <? checkDispatchThrottlingDefaultThreshold s)%N
            = false) as ->.
    { destruct Hc as [-> | [-> | Hle]]; [done | by rewrite andb_false_r |].
      apply N.ltb_ge in Hle. rewrite Hle. by rewrite andb_false_r. }
    assert (negb (listObjectsDispatchThrottlingMaxThreshold s =? 0)%N
            && (listObjectsDispatchThrottlingMaxThreshold s <? listObjectsDispatchDefaultThreshold s)%N
            = false) as ->.
    { destruct Hlo as [-> | Hle]; [done |].
      apply N.ltb_ge in Hle. rewrite Hle. by rewrite andb_false_r. }
    assert (negb (listUsersDispatchThrottlingMaxThreshold s =? 0)%N
            && (listUsersDispatchThrottlingMaxThreshold s <? listUsersDispatchDefaultThreshold s)%N
            = false) as ->.
    { destruct Hlu as [-> | Hle]; [done |].
      apply N.ltb_ge in Hle. rewrite Hle. by rewrite andb_false_r. }
    done.
Qed.

End Thresholds.

(** C9 as stated fails for Check: with Check dispatch throttling disabled, a
    default threshold of 200 above a non-zero maximum of 100 does not make
    the construction fail. *)
Lemma NewServerWithOpts_check_thresholds_unchecked_when_disabled :
  let opts := [WithDatastore (openFGADatastore "memory");
               WithDispatchThrottlingCheckResolverEnabled false;
               WithDispatchThrottlingCheckResolverThreshold 200;
               WithDispatchThrottlingCheckResolverMaxThreshold 100] in
  checkDispatchThrottlingMaxThreshold (configure Sample.world opts) = 100%N
  /\ checkDispatchThrottlingDefaultThreshold (configure Sample.world opts) = 200%N
  /\ exists s, NewServerWithOpts Sample.world opts = Ok s.
Proof.
  cbv zeta. split; [reflexivity | split; [reflexivity |]].
  eexists. vm_compute. reflexivity.
Qed.

(** C9 (amended) on the sample deployment: the same thresholds for
    ListObjects make the construction fail. *)
Lemma NewServerWithOpts_threshold_validation_witness :
  exists err,
    NewServerWithOpts Sample.world
      [WithDatastore (openFGADatastore "memory");
       WithListObjectsDispatchThrottlingThreshold 200;
       WithListObjectsDispatchThrottlingMaxThreshold 100] = Err err.
Proof.
  destruct (NewServerWithOpts_threshold_validation Sample.world
              [WithDatastore (openFGADatastore "memory");
               WithListObjectsDispatchThrottlingThreshold 200;
               WithListObjectsDispatchThrottlingMaxThreshold 100]) as (Hlo & _).
  apply Hlo; vm_compute; [discriminate | reflexivity].
Defined.

(** * Further properties of the handlers *)

(** The case split of [run_step], simplifying the goal only. *)
Ltac run_case :=
  match goal with
  | |- context [validateContextualTuples ?W ?ts ?l ?st] =>
      destruct (validateContextualTuples_state W ts l st) as [[? ->] | ->]
  | |- context [match ?x with _ => _ end] =>
      lazymatch x with
      | context [match _ with _ => _ end] => fail
      | _ => destruct x eqn:?
      end
  end; simpl.

Ltac run_all := run_unfold; repeat run_case.

(** Every run of the handler of call [c], with its error and final state
    substituted for the two variables that name them. *)
Ltac run_serve c :=
  destruct c; handlers_unfold; run_all; intros ? ? [= <- <-].

(** Read the memberships in a concrete trace or header list. *)
Ltac read_in H :=
  repeat (apply elem_of_cons in H as [H | H]; [try discriminate H |]);
  try (apply elem_of_nil in H; destruct H).

Section Resolution.

Context (W : World).

(** X1. When the typesystem resolver fails, the call returns the error that
    [resolveTypesystem] maps it to (latest-model-not-found or
    model-not-found by the requested id, validation error for an invalid
    model, the generic handling otherwise); the resolution is the last thing
    the handler did and no header was written. *)
Theorem typesystem_error_returned s ctx c r st storeID modelID err :
  serve W s ctx c = (r, st) ->
  EvResolveTypesystem storeID modelID ∈ trace st ->
  typesystemResolver s storeID modelID = Err err ->
  requestedModel c = Some (storeID, modelID)
  /\ r = Some (typesystemError W storeID modelID err)
  /\ last (trace st) = Some (EvResolveTypesystem storeID modelID)
  /\ headers st = [].
Proof.
  revert r st. run_serve c.
  all: intros Hin Hres; read_in Hin.
  all: simplify_eq; unfold typesystemError; rewrite Hres in *; simplify_eq.
  all: repeat case_match; repeat split; congruence.
Qed.

(** X2. The model-id header always names a resolved model: every value
    written under [Openfga-Authorization-Model-Id] is the id of the
    typesystem resolved for the request's store and model id, and a
    successful call of a handler whose request names a model has written it
    as its first header. *)
Theorem model_id_header_names_resolved_model s ctx c r st :
  serve W s ctx c = (r, st) ->
  httpmiddleware_XHttpCode W <> AuthorizationModelIDHeader ->
  (forall value, (AuthorizationModelIDHeader, value) ∈ headers st ->
     exists storeID modelID typesys,
       requestedModel c = Some (storeID, modelID)
       /\ typesystemResolver s storeID modelID = Ok typesys
       /\ value = GetAuthorizationModelID typesys)
  /\ (forall storeID modelID, requestedModel c = Some (storeID, modelID) -> r = None ->
      exists typesys,
        typesystemResolver s storeID modelID = Ok typesys
        /\ head (headers st) = Some (AuthorizationModelIDHeader, GetAuthorizationModelID typesys)).
Proof.
  revert r st. run_serve c.
  all: intros Hne; split;
    [ intros value Hin; read_in Hin; simplify_eq;
      do 3 eexists; (split; [reflexivity | split; [eassumption | reflexivity]])
    | intros storeID modelID ? ?; simplify_eq;
      eexists; (split; [eassumption | reflexivity]) ].
Qed.

(** X3. The status-code header is written on success only, by the four
    handlers that have one, with their code, and as the last header: a failed
    call carries no status-code header, and Check, ListObjects, Read, Write
    and the other handlers never write one. *)
Theorem status_code_header_only_on_success s ctx c r st value :
  serve W s ctx c = (r, st) ->
  httpmiddleware_XHttpCode W <> AuthorizationModelIDHeader ->
  (httpmiddleware_XHttpCode W, value) ∈ headers st ->
  r = None
  /\ (exists code, statusCodeOf c = Some code /\ value = strconv.Itoa code)
  /\ last (headers st) = Some (httpmiddleware_XHttpCode W, value).
Proof.
  revert r st. run_serve c.
  all: intros Hne Hin; read_in Hin; simplify_eq; try done.
  all: repeat split; eauto.
Qed.

End Resolution.

Section Calls.

Context (W : World).

(** X4. Each handler asks its gate about itself: [CheckAuthz] is entered
    with the handler's own method name and the request's store id, with the
    request context (the background context for StreamedListObjects), and
    with no modules, except by Write, which passes the modules extracted from
    the batch under the resolved typesystem.  The authorizer is asked under
    the same method and store, for the client id of the context's claims. *)
Theorem gate_asked_about_the_call s ctx c r st :
  serve W s ctx c = (r, st) ->
  (forall gctx storeID method modules,
     EvCheckAuthz gctx storeID method modules ∈ trace st ->
     method = apiMethod c /\ storeIdOf c = Some storeID
     /\ gctx = (if c is CallStreamedListObjects _ then context.Background else ctx)
     /\ (if c is CallWrite req
         then exists typesys,
                typesystemResolver s (write_StoreId req) (write_AuthorizationModelId req)
                  = Ok typesys
                /\ getModulesForWriteRequest W s req typesys = Ok modules
         else modules = []))
  /\ (forall clientID storeID method modules,
      EvAuthorize clientID storeID method modules ∈ trace st ->
      (exists claims, AuthClaimsFromContext ctx = Some claims /\ clientID = ClientID claims)
      /\ EvCheckAuthz ctx storeID method modules ∈ trace st).
Proof.
  revert r st. run_serve c.
  all: split; intros ? storeID method modules Hin; read_in Hin; simplify_eq.
  all: try (split; [eauto | repeat constructor]).
  all: repeat split; eauto.
Qed.

(** X5. A handler calls at most one command (or, for Check, the resolver
    once), and nothing after it: the command's event is the last of the
    trace and the only one of its kind. *)
Theorem one_command_at_the_end s ctx c r st ev :
  serve W s ctx c = (r, st) ->
  ev ∈ trace st -> commandEvent ev = true ->
  last (trace st) = Some ev
  /\ Forall (fun ev' => commandEvent ev' = false) (removelast (trace st)).
Proof.
  revert r st. run_serve c.
  all: intros Hin Hcmd; read_in Hin; simplify_eq; try done.
  all: split; [reflexivity | repeat constructor].
Qed.

(** X6. A request that fails its generated validation never reaches a
    command or the resolver, and the call fails; a context that says the
    request was already validated makes the handler skip [Validate]. *)
Theorem invalid_request_reaches_no_command s ctx c r st :
  serve W s ctx c = (r, st) ->
  (RequestIsValidatedFromContext ctx = false ->
   forall msg, requestValidate W c = Some msg ->
     r <> None /\ Forall (fun ev => commandEvent ev = false) (trace st))
  /\ (RequestIsValidatedFromContext ctx = true ->
      forall method, EvValidate method ∉ trace st).
Proof.
  revert r st. run_serve c.
  all: split.
  all: try (intros ? method Hin; read_in Hin; by simplify_eq).
  all: intros ? msg Hmsg; split; [done | repeat constructor].
Qed.

End Calls.

Section Gates.

Context (W : World).

(** X7. StreamedListObjects hands [context.Background()] to its gate, not
    the context of the stream.  With an authorizer the call therefore always
    fails with the internal "client ID not found in context" error, whatever
    claims the stream's context carries, and the authorizer is never asked. *)
Theorem StreamedListObjects_gate_sees_no_claims s req srvContext a :
  authorizer s = Some a ->
  StreamedListObjects W s req srvContext init =
    (Err (status.Error codes.Internal "client ID not found in context"),
     {| headers := [];
        trace := [EvCheckAuthz context.Background (lo_StoreId req) "StreamedListObjects" []] |}).
Proof.
  intros Ha. unfold StreamedListObjects, CheckAuthz. rewrite Ha. reflexivity.
Qed.

(** X8. Write consults the authorizer only when FGA-on-FGA is enabled (the
    experimental flag and the configuration switch): without it a server
    that holds an authorizer serves Write exactly as one that holds none. *)
Theorem Write_ignores_authorizer_without_fga_on_fga s ctx req :
  fgaOnFgaIsEnabled s = false ->
  Write W s ctx req init = Write W (set_authorizer None s) ctx req init.
Proof.
  intros Hfga. unfold Write.
  assert (fgaOnFgaIsEnabled (set_authorizer None s) = false) as Hfga' by exact Hfga.
  rewrite Hfga, Hfga'. reflexivity.
Qed.

End Gates.

(** X7 on the sample deployment: client "admin", whom the authorizer lets
    call anything, cannot stream. *)
Lemma StreamedListObjects_gate_sees_no_claims_witness :
  (StreamedListObjects Sample.world
     (Sample.server [ExperimentalFGAOnFGAParams] (Some Sample.metaAuthorizer))
     {| lo_StoreId := "test"; lo_AuthorizationModelId := "01MODEL"; lo_Type := "document";
        lo_Relation := "viewer"; lo_User := "user:anne"; lo_ContextualTuples := [];
        lo_Context := None; lo_Consistency := 0%Z |}
     (Sample.client "admin") init).1 =
    Err (status.Error codes.Internal "client ID not found in context").
Proof.
  rewrite (StreamedListObjects_gate_sees_no_claims Sample.world
             (Sample.server [ExperimentalFGAOnFGAParams] (Some Sample.metaAuthorizer))
             _ _ Sample.metaAuthorizer eq_refl).
  reflexivity.
Defined.

(** X8 on the sample deployment: without the experimental flag, a Write by a
    client the authorizer refuses succeeds. *)
Lemma Write_ignores_authorizer_without_fga_on_fga_witness :
  (Write Sample.world (Sample.server [] (Some Sample.metaAuthorizer)) (Sample.client "mallory")
     (Sample.writeRequest "test" "01MODEL" [("document:1", "viewer")] []) init).1 =
    Ok (protoMessage "WriteResponse").
Proof.
  rewrite (Write_ignores_authorizer_without_fga_on_fga Sample.world
             (Sample.server [] (Some Sample.metaAuthorizer)) _ _ eq_refl).
  vm_compute. reflexivity.
Defined.

Section Construction.

Context (W : World).

(** What [buildResources] changes: the two resolvers and the authorizer. *)
Lemma buildResources_fields s s' :
  buildResources W s = Ok s' ->
  datastore s' = datastore s
  /\ experimentals s' = experimentals s
  /\ FGAOnFGA s' = FGAOnFGA s
  /\ resolveNodeLimit s' = resolveNodeLimit s
  /\ requestDurationByQueryHistogramBuckets s' = requestDurationByQueryHistogramBuckets s
  /\ requestDurationByDispatchCountHistogramBuckets s'
     = requestDurationByDispatchCountHistogramBuckets s
  /\ checkDispatchThrottlingEnabled s' = checkDispatchThrottlingEnabled s
  /\ checkDispatchThrottlingDefaultThreshold s' = checkDispatchThrottlingDefaultThreshold s
  /\ checkDispatchThrottlingMaxThreshold s' = checkDispatchThrottlingMaxThreshold s
  /\ listObjectsDispatchDefaultThreshold s' = listObjectsDispatchDefaultThreshold s
  /\ listObjectsDispatchThrottlingMaxThreshold s' = listObjectsDispatchThrottlingMaxThreshold s
  /\ listUsersDispatchDefaultThreshold s' = listUsersDispatchDefaultThreshold s
  /\ listUsersDispatchThrottlingMaxThreshold s' = listUsersDispatchThrottlingMaxThreshold s
  /\ checkResolver s' = graph_NewOrderedCheckResolvers W s
  /\ typesystemResolver s' = typesystem_MemoizedTypesystemResolverFunc W (datastore s)
  /\ (fgaOnFgaIsEnabled s = true ->
      fga_StoreID (FGAOnFGA s) <> "" /\ fga_ModelID (FGAOnFGA s) <> ""
      /\ exists a, authorizer s' = Some a
                   /\ authz_NewAuthorizer W (fga_StoreID (FGAOnFGA s)) (fga_ModelID (FGAOnFGA s))
                        (set_typesystemResolver
                           (typesystem_MemoizedTypesystemResolverFunc W (datastore s))
                           (set_checkResolver (graph_NewOrderedCheckResolvers W s) s)) = Ok a)
  /\ (fgaOnFgaIsEnabled s = false -> authorizer s' = authorizer s).
Proof.
  unfold buildResources, validateFGAOnFGAEnabled.
  change (fgaOnFgaIsEnabled (set_typesystemResolver _ (set_checkResolver _ s)))
    with (fgaOnFgaIsEnabled s).
  simpl.
  destruct (fgaOnFgaIsEnabled s) eqn:Hfga; simpl.
  - destruct (bool_decide (fga_StoreID (FGAOnFGA s) = "")) eqn:Hs; [done |].
    destruct (bool_decide (fga_ModelID (FGAOnFGA s) = "")) eqn:Hm; [done |]. simpl.
    apply bool_decide_eq_false in Hs. apply bool_decide_eq_false in Hm.
    destruct (authz_NewAuthorizer W _ _ _) as [a|] eqn:Ha; [|done].
    intros [= <-]. simpl. repeat split; try done. eauto.
  - intros [= <-]. simpl. repeat split; done.
Qed.

(** X9. Every server that [NewServerWithOpts] returns is well configured: it
    has a datastore and non-empty histogram buckets; its ListObjects and
    ListUsers thresholds satisfy default <= max unless max = 0, and so do the
    Check thresholds when Check throttling is enabled; when FGA-on-FGA is
    enabled its store id and model id are not empty and it holds the
    authorizer made for them; and its resolvers are the ones built from the
    configured struct. *)
Theorem NewServerWithOpts_returns_consistent_server opts s' :
  NewServerWithOpts W opts = Ok s' ->
  datastore s' <> None
  /\ requestDurationByQueryHistogramBuckets s' <> []
  /\ requestDurationByDispatchCountHistogramBuckets s' <> []
  /\ (checkDispatchThrottlingEnabled s' = true ->
      checkDispatchThrottlingMaxThreshold s' = 0%N
      \/ (checkDispatchThrottlingDefaultThreshold s' <= checkDispatchThrottlingMaxThreshold s')%N)
  /\ (listObjectsDispatchThrottlingMaxThreshold s' = 0%N
      \/ (listObjectsDispatchDefaultThreshold s' <= listObjectsDispatchThrottlingMaxThreshold s')%N)
  /\ (listUsersDispatchThrottlingMaxThreshold s' = 0%N
      \/ (listUsersDispatchDefaultThreshold s' <= listUsersDispatchThrottlingMaxThreshold s')%N)
  /\ (fgaOnFgaIsEnabled s' = true ->
      fga_StoreID (FGAOnFGA s') <> "" /\ fga_ModelID (FGAOnFGA s') <> ""
      /\ is_Some (authorizer s'))
  /\ checkResolver s' = graph_NewOrderedCheckResolvers W (configure W opts)
  /\ typesystemResolver s'
     = typesystem_MemoizedTypesystemResolverFunc W (datastore (configure W opts)).
Proof.
  unfold NewServerWithOpts. set (s := configure W opts).
  destruct (bool_decide (datastore s = None)) eqn:Hds; [done |].
  destruct (bool_decide (length (requestDurationByQueryHistogramBuckets s) = 0)) eqn:Hb1;
    [done |].
  destruct (bool_decide (length (requestDurationByDispatchCountHistogramBuckets s) = 0))
    eqn:Hb2; [done |].
  destruct (checkDispatchThrottlingEnabled s
            && negb (checkDispatchThrottlingMaxThreshold s =? 0)%N
            && (checkDispatchThrottlingMaxThreshold s <? checkDispatchThrottlingDefaultThreshold s)%N)
    eqn:Hc; [done |].
  destruct (negb (listObjectsDispatchThrottlingMaxThreshold s =? 0)%N
            && (listObjectsDispatchThrottlingMaxThreshold s <? listObjectsDispatchDefaultThreshold s)%N)
    eqn:Hlo; [done |].
  destruct (negb (listUsersDispatchThrottlingMaxThreshold s =? 0)%N
            && (listUsersDispatchThrottlingMaxThreshold s <? listUsersDispatchDefaultThreshold s)%N)
    eqn:Hlu; [done |].
  intros Hbuild.
  destruct (buildResources_fields s s' Hbuild)
    as (-> & He & Hf & _ & -> & -> & -> & -> & -> & -> & -> & -> & -> & -> & -> & Hon & Hoff).
  apply bool_decide_eq_false in Hds, Hb1, Hb2.
  assert (fgaOnFgaIsEnabled s' = fgaOnFgaIsEnabled s) as Hfga.
  { unfold fgaOnFgaIsEnabled, IsExperimentallyEnabled. by rewrite He, Hf. }
  rewrite Hfga, Hf.
  split; [done |]. split; [by intros Hnil; rewrite Hnil in Hb1 |].
  split; [by intros Hnil; rewrite Hnil in Hb2 |].
  split.
  { intros Hen. rewrite Hen in Hc. simpl in Hc.
    destruct (checkDispatchThrottlingMaxThreshold s =? 0)%N eqn:Hz.
    - left. by apply N.eqb_eq.
    - right. simpl in Hc. by apply N.ltb_ge. }
  split.
  { destruct (listObjectsDispatchThrottlingMaxThreshold s =? 0)%N eqn:Hz.
    - left. by apply N.eqb_eq.
    - right. simpl in Hlo. by apply N.ltb_ge. }
  split.
  { destruct (listUsersDispatchThrottlingMaxThreshold s =? 0)%N eqn:Hz.
    - left. by apply N.eqb_eq.
    - right. simpl in Hlu. by apply N.ltb_ge. }
  split; [|done].
  intros Hen. destruct (Hon Hen) as (Hs & Hm & a & Ha & _).
  split; [done | split; [done |]]. rewrite Ha. by eexists.
Qed.

End Construction.

(** X9 on the sample deployment: a server built with FGA-on-FGA holds an
    authorizer. *)
Lemma NewServerWithOpts_returns_consistent_server_witness :
  exists s',
    NewServerWithOpts Sample.world
      [WithDatastore (openFGADatastore "memory");
       WithExperimentals [ExperimentalFGAOnFGAParams];
       WithFGAOnFGAParams {| fga_Enabled := true; fga_StoreID := "root";
                             fga_ModelID := "01ROOT" |}] = Ok s'
    /\ is_Some (authorizer s').
Proof.
  destruct (NewServerWithOpts Sample.world
              [WithDatastore (openFGADatastore "memory");
               WithExperimentals [ExperimentalFGAOnFGAParams];
               WithFGAOnFGAParams {| fga_Enabled := true; fga_StoreID := "root";
                                     fga_ModelID := "01ROOT" |}]) as [s'|e] eqn:Hnew.
  - exists s'. split; [reflexivity |].
    destruct (NewServerWithOpts_returns_consistent_server Sample.world _ s' Hnew)
      as (_ & _ & _ & _ & _ & _ & Hfga & _).
    apply Hfga.
    vm_compute in Hnew. injection Hnew as <-. reflexivity.
  - vm_compute in Hnew. discriminate Hnew.
Defined.

(** ** The modules of a write batch *)

Section Modules.

Context (W : World).

(** One step of the writes loop, by the module of the first tuple. *)
Lemma modulesOfWrites_cons typesys tk rest acc :
  modulesOfWrites W typesys (tk :: rest) acc =
    match writeModule W typesys tk with
    | Err err => Err err
    | Ok m => if bool_decide (m = "") then Ok (acc, true)
              else modulesOfWrites W typesys rest ({[m]} ∪ acc)
    end.
Proof.
  unfold writeModule. simpl. by destruct (tuple_SplitObject W (tk_Object tk)).
Qed.

Lemma modulesOfDeletes_cons typesys tk rest acc :
  modulesOfDeletes W typesys (tk :: rest) acc =
    match deleteModule W typesys tk with
    | Err err => Err err
    | Ok m => if bool_decide (m = "") then Ok acc
              else modulesOfDeletes W typesys rest ({[m]} ∪ acc)
    end.
Proof.
  unfold deleteModule. simpl. by destruct (tuple_SplitObject W (tkwc_Object tk)).
Qed.

(** The writes loop only adds modules of tuples it has looked at. *)
Lemma modulesOfWrites_sound typesys tks acc modulesMap flag m :
  modulesOfWrites W typesys tks acc = Ok (modulesMap, flag) ->
  m ∈ modulesMap ->
  m ∈ acc \/ (m <> "" /\ exists tk, tk ∈ tks /\ writeModule W typesys tk = Ok m).
Proof.
  revert acc. induction tks as [|tk rest IH]; intros acc.
  - simpl. intros [= <- <-]. by left.
  - rewrite modulesOfWrites_cons.
    destruct (writeModule W typesys tk) as [m'|] eqn:Hm; [|done].
    case_bool_decide as He.
    + intros [= <- <-]. by left.
    + intros Hrest Hin. destruct (IH _ Hrest Hin) as [Hacc | (Hne & tk' & Hin' & Htk')].
      * apply elem_of_union in Hacc as [Heq | Hacc]; [|by left].
        apply elem_of_singleton in Heq as ->. right. split; [done |].
        exists tk. split; [by left | done].
      * right. split; [done |]. exists tk'. split; [by right | done].
Qed.

Lemma modulesOfDeletes_sound typesys tks acc modulesMap m :
  modulesOfDeletes W typesys tks acc = Ok modulesMap ->
  m ∈ modulesMap ->
  m ∈ acc \/ (m <> "" /\ exists tk, tk ∈ tks /\ deleteModule W typesys tk = Ok m).
Proof.
  revert acc. induction tks as [|tk rest IH]; intros acc.
  - simpl. intros [= <-]. by left.
  - rewrite modulesOfDeletes_cons.
    destruct (deleteModule W typesys tk) as [m'|] eqn:Hm; [|done].
    case_bool_decide as He.
    + intros [= <-]. by left.
    + intros Hrest Hin. destruct (IH _ Hrest Hin) as [Hacc | (Hne & tk' & Hin' & Htk')].
      * apply elem_of_union in Hacc as [Heq | Hacc]; [|by left].
        apply elem_of_singleton in Heq as ->. right. split; [done |].
        exists tk. split; [by left | done].
      * right. split; [done |]. exists tk'. split; [by right | done].
Qed.

(** When every tuple has a module, the loops collect all of them. *)
Lemma modulesOfWrites_complete typesys tks acc :
  (forall tk, tk ∈ tks -> exists m, writeModule W typesys tk = Ok m /\ m <> "") ->
  exists modulesMap,
    modulesOfWrites W typesys tks acc = Ok (modulesMap, false)
    /\ forall m, m ∈ modulesMap <->
                 m ∈ acc \/ exists tk, tk ∈ tks /\ writeModule W typesys tk = Ok m.
Proof.
  revert acc. induction tks as [|tk rest IH]; intros acc Hall.
  - exists acc. split; [done |]. intros m. split; [by left |].
    intros [? | (tk & Hin & _)]; [done |]. by apply elem_of_nil in Hin.
  - rewrite modulesOfWrites_cons.
    destruct (Hall tk) as (m0 & Hm0 & Hne); [by left |].
    rewrite Hm0, bool_decide_eq_false_2 by done.
    destruct (IH ({[m0]} ∪ acc)) as (modulesMap & Hloop & Hiff).
    { intros tk' Hin. apply Hall. by right. }
    exists modulesMap. split; [done |]. intros m. rewrite Hiff, elem_of_union, elem_of_singleton.
    split.
    + intros [[-> | Hacc] | (tk' & Hin & Htk')].
      * right. exists tk. split; [by left | done].
      * by left.
      * right. exists tk'. split; [by right | done].
    + intros [Hacc | (tk' & Hin & Htk')]; [by left; right |].
      apply elem_of_cons in Hin as [-> | Hin].
      * left. left. congruence.
      * right. by exists tk'.
Qed.

Lemma modulesOfDeletes_complete typesys tks acc :
  (forall tk, tk ∈ tks -> exists m, deleteModule W typesys tk = Ok m /\ m <> "") ->
  exists modulesMap,
    modulesOfDeletes W typesys tks acc = Ok modulesMap
    /\ forall m, m ∈ modulesMap <->
                 m ∈ acc \/ exists tk, tk ∈ tks /\ deleteModule W typesys tk = Ok m.
Proof.
  revert acc. induction tks as [|tk rest IH]; intros acc Hall.
  - exists acc. split; [done |]. intros m. split; [by left |].
    intros [? | (tk & Hin & _)]; [done |]. by apply elem_of_nil in Hin.
  - rewrite modulesOfDeletes_cons.
    destruct (Hall tk) as (m0 & Hm0 & Hne); [by left |].
    rewrite Hm0, bool_decide_eq_false_2 by done.
    destruct (IH ({[m0]} ∪ acc)) as (modulesMap & Hloop & Hiff).
    { intros tk' Hin. apply Hall. by right. }
    exists modulesMap. split; [done |]. intros m. rewrite Hiff, elem_of_union, elem_of_singleton.
    split.
    + intros [[-> | Hacc] | (tk' & Hin & Htk')].
      * right. exists tk. split; [by left | done].
      * by left.
      * right. exists tk'. split; [by right | done].
    + intros [Hacc | (tk' & Hin & Htk')]; [by left; right |].
      apply elem_of_cons in Hin as [-> | Hin].
      * left. left. congruence.
      * right. by exists tk'.
Qed.

(** The writes loop stops at the first tuple that has no module or whose
    lookup fails. *)
Lemma modulesOfWrites_stop typesys pre tk post acc :
  (forall t, t ∈ pre -> exists m, writeModule W typesys t = Ok m /\ m <> "") ->
  (writeModule W typesys tk = Ok "" ->
   exists modulesMap, modulesOfWrites W typesys (pre ++ tk :: post) acc = Ok (modulesMap, true))
  /\ (forall err, writeModule W typesys tk = Err err ->
      modulesOfWrites W typesys (pre ++ tk :: post) acc = Err err).
Proof.
  revert acc. induction pre as [|t pre IH]; intros acc Hall.
  - simpl app. rewrite modulesOfWrites_cons. split.
    + intros ->. by exists acc.
    + by intros err ->.
  - simpl app. rewrite modulesOfWrites_cons.
    destruct (Hall t) as (m0 & -> & Hne); [by left |].
    rewrite bool_decide_eq_false_2 by done.
    apply IH. intros t' Hin. apply Hall. by right.
Qed.

(** X10. The modules [getModulesForWriteRequest] returns are distinct, none
    is the empty string, and each is the module of a tuple of the batch. *)
Theorem getModulesForWriteRequest_sound s req typesys modules :
  getModulesForWriteRequest W s req typesys = Ok modules ->
  NoDup modules
  /\ forall m, m ∈ modules ->
       m <> ""
       /\ ((exists tk, tk ∈ write_Writes req /\ writeModule W typesys tk = Ok m)
           \/ (exists tk, tk ∈ write_Deletes req /\ deleteModule W typesys tk = Ok m)).
Proof.
  unfold getModulesForWriteRequest.
  destruct (modulesOfWrites W typesys (write_Writes req) ∅) as [[fromWrites flag]|] eqn:Hw;
    [|done].
  destruct flag; simpl.
  - intros [= <-]. split; [constructor |]. intros m Hin. by apply elem_of_nil in Hin.
  - destruct (modulesOfDeletes W typesys (write_Deletes req) fromWrites) as [all|] eqn:Hd;
      [|done].
    intros [= <-]. split; [apply NoDup_elements |].
    intros m Hin. apply elem_of_elements in Hin.
    destruct (modulesOfDeletes_sound _ _ _ _ _ Hd Hin) as [Hfw | (Hne & tk & Htk)].
    + destruct (modulesOfWrites_sound _ _ _ _ _ _ Hw Hfw) as [Hempty | (Hne & tk & Htk)].
      * by apply not_elem_of_empty in Hempty.
      * split; [done |]. left. by exists tk.
    + split; [done |]. right. by exists tk.
Qed.

(** X11. When every tuple of the batch, written or deleted, has a module,
    the result lists exactly the modules the batch touches. *)
Theorem getModulesForWriteRequest_complete s req typesys :
  (forall tk, tk ∈ write_Writes req -> exists m, writeModule W typesys tk = Ok m /\ m <> "") ->
  (forall tk, tk ∈ write_Deletes req -> exists m, deleteModule W typesys tk = Ok m /\ m <> "") ->
  exists modules,
    getModulesForWriteRequest W s req typesys = Ok modules
    /\ forall m, m ∈ modules <->
         (exists tk, tk ∈ write_Writes req /\ writeModule W typesys tk = Ok m)
         \/ (exists tk, tk ∈ write_Deletes req /\ deleteModule W typesys tk = Ok m).
Proof.
  intros Hw Hd. unfold getModulesForWriteRequest.
  destruct (modulesOfWrites_complete typesys (write_Writes req) ∅ Hw)
    as (fromWrites & -> & Hiffw).
  simpl.
  destruct (modulesOfDeletes_complete typesys (write_Deletes req) fromWrites Hd)
    as (all & -> & Hiffd).
  exists (elements all). split; [done |].
  intros m. rewrite elem_of_elements, Hiffd, Hiffw.
  split.
  - intros [[Hempty | ?] | ?]; [by apply not_elem_of_empty in Hempty | by left | by right].
  - intros [? | ?]; [left; by right | by right].
Qed.

(** X12. The writes decide first: at the first written tuple without a
    module the result is the empty list, whatever the rest of the batch; at
    the first written tuple whose lookup fails, the result is that error. *)
Theorem getModulesForWriteRequest_first_write_decides s req typesys
    (pre : list TupleKey) tk post :
  write_Writes req = (pre ++ tk :: post)%list ->
  (forall t, t ∈ pre -> exists m, writeModule W typesys t = Ok m /\ m <> "") ->
  (writeModule W typesys tk = Ok "" -> getModulesForWriteRequest W s req typesys = Ok [])
  /\ (forall err, writeModule W typesys tk = Err err ->
        getModulesForWriteRequest W s req typesys = Err err).
Proof.
  intros Hsplit Hpre. unfold getModulesForWriteRequest. rewrite Hsplit.
  destruct (modulesOfWrites_stop typesys pre tk post ∅ Hpre) as [Hempty Herr].
  split.
  - intros Htk. destruct (Hempty Htk) as [modulesMap ->]. done.
  - intros err Htk. by rewrite (Herr err Htk).
Qed.

(** X13. The deletes do not fall back: when every written tuple has a module
    and the first deleted tuple without one is reached, the loop just stops,
    and the result lists the modules of the writes and of the deletes before
    that tuple; the rest of the batch is not looked at. *)
Theorem getModulesForWriteRequest_delete_stops_silently s req typesys
    (pre : list TupleKeyWithoutCondition) tk post :
  (forall t, t ∈ write_Writes req -> exists m, writeModule W typesys t = Ok m /\ m <> "") ->
  write_Deletes req = (pre ++ tk :: post)%list ->
  (forall t, t ∈ pre -> exists m, deleteModule W typesys t = Ok m /\ m <> "") ->
  deleteModule W typesys tk = Ok "" ->
  exists modules,
    getModulesForWriteRequest W s req typesys = Ok modules
    /\ forall m, m ∈ modules <->
         (exists t, t ∈ write_Writes req /\ writeModule W typesys t = Ok m)
         \/ (exists t, t ∈ pre /\ deleteModule W typesys t = Ok m).
Proof.
  intros Hw Hsplit Hpre Htk. unfold getModulesForWriteRequest.
  destruct (modulesOfWrites_complete typesys (write_Writes req) ∅ Hw)
    as (fromWrites & -> & Hiffw).
  simpl. rewrite Hsplit.
  assert (forall acc,
            modulesOfDeletes W typesys (pre ++ tk :: post) acc
            = modulesOfDeletes W typesys pre acc) as Hstop.
  { clear Hsplit. induction pre as [|t pre IH]; intros acc.
    - simpl app. rewrite modulesOfDeletes_cons, Htk. done.
    - simpl app. rewrite !modulesOfDeletes_cons.
      destruct (Hpre t) as (m0 & -> & Hne); [by left |].
      rewrite bool_decide_eq_false_2 by done.
      apply IH. intros t' Hin. apply Hpre. by right. }
  rewrite Hstop.
  destruct (modulesOfDeletes_complete typesys pre fromWrites Hpre) as (all & -> & Hiffd).
  exists (elements all). split; [done |].
  intros m. rewrite elem_of_elements, Hiffd, Hiffw.
  split.
  - intros [[Hempty | ?] | ?]; [by apply not_elem_of_empty in Hempty | by left | by right].
  - intros [? | ?]; [left; by right | by right].
Qed.

End Modules.

(** ** What reaches the resolver and the commands *)

Section Forwarding.

Context (W : World).

(** X14. A Check that succeeds asked the resolver exactly once, about the
    request's store, tuple, contextual tuples and context under the id of the
    resolved model (not the id the request named), with fresh metadata whose
    depth is the server's resolve-node limit; the response's [Allowed] is the
    resolver's answer. *)
Theorem Check_answers_with_the_resolver s ctx req resp st :
  Check W s ctx req init = (Ok resp, st) ->
  exists typesys answer metadata,
    typesystemResolver s (check_StoreId req) (check_AuthorizationModelId req) = Ok typesys
    /\ checkResolver s
         {| graph.StoreID := check_StoreId req;
            graph.AuthorizationModelID := GetAuthorizationModelID typesys;
            graph.TupleKey_ := tuple_ConvertCheckRequestTupleKeyToTupleKey W (check_TupleKey req);
            graph.ContextualTuples := check_ContextualTuples req;
            graph.Context_ := check_Context req;
            graph.RequestMetadata :=
              {| Depth := resolveNodeLimit s; DispatchCounter := 0; WasThrottled := false |};
            graph.Consistency := check_Consistency req |} = (Ok answer, metadata)
    /\ Allowed resp = graph.resp_Allowed answer
    /\ validation_ValidateUserObjectRelation W typesys
         (tuple_ConvertCheckRequestTupleKeyToTupleKey W (check_TupleKey req)) = None.
Proof.
  unfold Check, CheckWithoutAuthz, CheckAuthz, resolveTypesystem. run_all.
  all: intros [= <- <-].
  all: do 3 eexists; repeat split; eauto.
Qed.

(** X15. A resolver error that is a condition-evaluation failure, and not
    the depth error, is returned by Check as a validation error that wraps
    it, whether or not the request was throttled. *)
Theorem Check_evaluation_failure_is_validation_error s ctx req rq err md :
  EvResolveCheck rq ∈ trace (Check W s ctx req init).2 ->
  checkResolver s rq = (Err err, md) ->
  errors.Is err graph_ErrResolutionDepthExceeded = false ->
  errors.Is err condition_ErrEvaluationFailed = true ->
  (Check W s ctx req init).1 = Err (serverErrors_ValidationError W err).
Proof.
  intros Hin Hres Hdepth Heval.
  by rewrite (Check_resolver_error W _ _ _ _ _ _ Hin Hres), Hdepth, Heval.
Qed.

(** X16. ListObjects and StreamedListObjects treat an error of the query
    differently: ListObjects turns a condition-evaluation failure into a
    validation error and returns every other error as it is; the streamed
    variant returns every error as it is, evaluation failures included. *)
Theorem ListObjects_query_error s ctx req typesys err :
  authorizer s = None ->
  validateConsistencyRequest s (lo_Consistency req) = None ->
  RequestIsValidatedFromContext ctx = true \/ requestValidate W (CallListObjects req) = None ->
  RequestIsValidatedFromContext ctx = true
    \/ requestValidate W (CallStreamedListObjects req) = None ->
  typesystemResolver s (lo_StoreId req) (lo_AuthorizationModelId req) = Ok typesys ->
  commands_NewListObjectsQuery W s = None ->
  let resolved :=
    {| lo_StoreId := lo_StoreId req;
       lo_AuthorizationModelId := GetAuthorizationModelID typesys;
       lo_Type := lo_Type req;
       lo_Relation := lo_Relation req;
       lo_User := lo_User req;
       lo_ContextualTuples := lo_ContextualTuples req;
       lo_Context := lo_Context req;
       lo_Consistency := lo_Consistency req |} in
  (ListObjectsQuery_Execute W typesys resolved = Err err ->
   (ListObjects W s ctx req init).1 =
     Err (if errors.Is err condition_ErrEvaluationFailed
          then serverErrors_ValidationError W err else err))
  /\ (ListObjectsQuery_ExecuteStreamed W typesys resolved = Err err ->
      (StreamedListObjects W s req ctx init).1 = Err err).
Proof.
  intros Ha Hc Hv Hvs Hts Hq. cbv zeta. simpl in Hv, Hvs.
  unfold ListObjects, ListObjectsWithoutAuthz, StreamedListObjects, CheckAuthz,
    resolveTypesystem.
  rewrite Ha. run_unfold. rewrite Hc, Hts, Hq. simpl.
  split; intros Hexec; rewrite Hexec.
  - destruct Hv as [-> | Hv]; [| destruct (RequestIsValidatedFromContext ctx); rewrite ?Hv];
      simpl; by destruct (errors.Is err condition_ErrEvaluationFailed).
  - destruct Hvs as [-> | Hvs]; [| destruct (RequestIsValidatedFromContext ctx); rewrite ?Hvs];
      done.
Qed.

(** X17. The commands behind Write, Expand, WriteAssertions and
    ReadAssertions run under the id of the resolved model: a successful call
    returns what the command answered to the request with its model id
    replaced by the resolved one (so a request without a model id runs under
    the store's latest model). *)
Theorem commands_run_under_resolved_model s ctx :
  (forall req res st, Write W s ctx req init = (Ok res, st) ->
     exists typesys,
       typesystemResolver s (write_StoreId req) (write_AuthorizationModelId req) = Ok typesys
       /\ WriteCommand_Execute W
            {| write_StoreId := write_StoreId req;
               write_AuthorizationModelId := GetAuthorizationModelID typesys;
               write_Writes := write_Writes req;
               write_Deletes := write_Deletes req |} = Ok res)
  /\ (forall req res st, Expand W s ctx req init = (Ok res, st) ->
      exists typesys,
        typesystemResolver s (expand_StoreId req) (expand_AuthorizationModelId req) = Ok typesys
        /\ ExpandQuery_Execute W
             {| expand_StoreId := expand_StoreId req;
                expand_AuthorizationModelId := GetAuthorizationModelID typesys;
                expand_TupleKey := expand_TupleKey req;
                expand_Consistency := expand_Consistency req |} = Ok res)
  /\ (forall req res st, WriteAssertions W s ctx req init = (Ok res, st) ->
      exists typesys,
        typesystemResolver s (wa_StoreId req) (wa_AuthorizationModelId req) = Ok typesys
        /\ WriteAssertionsCommand_Execute W
             {| wa_StoreId := wa_StoreId req;
                wa_AuthorizationModelId := GetAuthorizationModelID typesys;
                wa_Assertions := wa_Assertions req |} = Ok res)
  /\ (forall req res st, ReadAssertions W s ctx req init = (Ok res, st) ->
      exists typesys,
        typesystemResolver s (ra_StoreId req) (ra_AuthorizationModelId req) = Ok typesys
        /\ ReadAssertionsQuery_Execute W (ra_StoreId req) (GetAuthorizationModelID typesys)
           = Ok res).
Proof.
  split; [|split; [|split]]; intros req res st; handlers_unfold; run_all.
  all: intros [= <- <-]; eauto.
Qed.

End Forwarding.

(** ** The cached tuple iterator *)

Section CachedIterator.

Context {I : Type}.
Context (iter_Next : I -> Result iterators.cachedTuple * I).

(** X18. Reading a cached tuple iterator to its end gives exactly the cached
    tuples of the underlying iterator, in order, each rebuilt as a tuple
    under the object and relation of the iterator with the user, condition
    and timestamp of the cached tuple; the error that ends the reading is the
    underlying iterator's, and the object and relation never change. *)
Theorem cachedTupleIterator_reads_underlying_tuples fuel (c : iterators.cachedTupleIterator) :
  iterators.drain (iterators.Next iter_Next) fuel c =
    (map (iterators.tupleOf c) (iterators.drain iter_Next fuel (iterators.iter c)).1.1,
     (iterators.drain iter_Next fuel (iterators.iter c)).1.2,
     iterators.withIter c (iterators.drain iter_Next fuel (iterators.iter c)).2)
  /\ Forall (fun t => tk_Object (iterators.Key t) = iterators.object c
                      /\ tk_Relation (iterators.Key t) = iterators.relation c)
       (iterators.drain (iterators.Next iter_Next) fuel c).1.1.
Proof.
  assert (iterators.drain (iterators.Next iter_Next) fuel c =
    (map (iterators.tupleOf c) (iterators.drain iter_Next fuel (iterators.iter c)).1.1,
     (iterators.drain iter_Next fuel (iterators.iter c)).1.2,
     iterators.withIter c (iterators.drain iter_Next fuel (iterators.iter c)).2)) as Hdrain.
  { revert c. induction fuel as [|fuel IH]; intros c.
    - by destruct c.
    - simpl. unfold iterators.Next at 1.
      destruct (iter_Next (iterators.iter c)) as [[t|err] i]; [|done].
      rewrite IH. simpl.
      destruct (iterators.drain iter_Next fuel i) as [[ts e] i']. done. }
  split; [exact Hdrain |].
  rewrite Hdrain. simpl. apply Forall_forall. intros t Hin.
  apply list_elem_of_fmap in Hin as (cached & -> & _). done.
Qed.

End CachedIterator.

(** ** The further properties on the sample deployment *)

(** X1: a Write that names an unknown model. *)
Lemma typesystem_error_returned_witness :
  (serve Sample.world (Sample.server [] None) Sample.anonymous
     (CallWrite (Sample.writeRequest "test" "01MISSING" [("document:1", "viewer")] []))).1 =
    Some (serverErrors_AuthorizationModelNotFound Sample.world "01MISSING").
Proof.
  eassert (serve Sample.world (Sample.server [] None) Sample.anonymous
             (CallWrite (Sample.writeRequest "test" "01MISSING" [("document:1", "viewer")] []))
           = _) as Hrun by (vm_compute; reflexivity).
  destruct (typesystem_error_returned Sample.world _ _ _ _ _ "test" "01MISSING"
              (sentinelError typesystem_ErrModelNotFound) Hrun) as (_ & Hr & _).
  - repeat constructor.
  - reflexivity.
  - rewrite Hrun. simpl. rewrite Hr. reflexivity.
Defined.

(** X2: a Check without a model id answers under the latest model and says
    so in the header. *)
Lemma model_id_header_names_resolved_model_witness :
  head (headers (serve Sample.world (Sample.server [] None) Sample.anonymous
                   (CallCheck {| check_StoreId := "test";
                                 check_AuthorizationModelId := "";
                                 check_TupleKey :=
                                   {| crtk_User := "user:anne"; crtk_Relation := "viewer";
                                      crtk_Object := "document:1" |};
                                 check_ContextualTuples := [];
                                 check_Context := None;
                                 check_Consistency := 0%Z |})).2) =
    Some (AuthorizationModelIDHeader, "01LATEST").
Proof.
  eassert (serve Sample.world (Sample.server [] None) Sample.anonymous
             (CallCheck {| check_StoreId := "test";
                           check_AuthorizationModelId := "";
                           check_TupleKey :=
                             {| crtk_User := "user:anne"; crtk_Relation := "viewer";
                                crtk_Object := "document:1" |};
                           check_ContextualTuples := [];
                           check_Context := None;
                           check_Consistency := 0%Z |}) = _) as Hrun
    by (vm_compute; reflexivity).
  destruct (model_id_header_names_resolved_model Sample.world _ _ _ _ _ Hrun) as (_ & Hhead).
  - discriminate.
  - destruct (Hhead "test" "" eq_refl eq_refl) as (typesys & Hts & Hh).
    rewrite Hrun. simpl. simpl in Hh. rewrite Hh.
    injection Hts as <-. reflexivity.
Defined.

(** X3: the status-code header of a DeleteStore is there because the call
    succeeded. *)
Lemma status_code_header_only_on_success_witness :
  (serve Sample.world (Sample.server [] None) Sample.anonymous
     (CallDeleteStore {| ds_StoreId := "test" |})).1 = None.
Proof.
  eassert (serve Sample.world (Sample.server [] None) Sample.anonymous
             (CallDeleteStore {| ds_StoreId := "test" |}) = _) as Hrun
    by (vm_compute; reflexivity).
  destruct (status_code_header_only_on_success Sample.world _ _ _ _ _ "204" Hrun) as (Hr & _).
  - discriminate.
  - repeat constructor.
  - rewrite Hrun. exact Hr.
Defined.

(** X4: the gate of a Write by client "admin" is asked about "Write", store
    "test" and the module of the batch. *)
Lemma gate_asked_about_the_call_witness :
  getModulesForWriteRequest Sample.world
    (Sample.server [ExperimentalFGAOnFGAParams] (Some Sample.metaAuthorizer))
    (Sample.writeRequest "test" "01MODEL" [("document:1", "viewer")] [])
    (Sample.typesys "01MODEL") = Ok ["docs"].
Proof.
  eassert (serve Sample.world
             (Sample.server [ExperimentalFGAOnFGAParams] (Some Sample.metaAuthorizer))
             (Sample.client "admin")
             (CallWrite (Sample.writeRequest "test" "01MODEL" [("document:1", "viewer")] []))
           = _) as Hrun by (vm_compute; reflexivity).
  destruct (gate_asked_about_the_call Sample.world _ _ _ _ _ Hrun) as (Hgate & _).
  destruct (Hgate (Sample.client "admin") "test" "Write" ["docs"])
    as (_ & _ & _ & typesys & Hts & Hmods).
  - repeat constructor.
  - injection Hts as <-. exact Hmods.
Defined.

(** X5: the command of a Read is the last event of its trace. *)
Lemma one_command_at_the_end_witness :
  last (trace (serve Sample.world (Sample.server [] None) Sample.anonymous
                 (CallRead {| read_StoreId := "test"; read_TupleKey := None;
                              read_PageSize := None; read_ContinuationToken := "";
                              read_Consistency := 0%Z |})).2) =
    Some (EvExecute "ReadQuery.Execute").
Proof.
  eassert (serve Sample.world (Sample.server [] None) Sample.anonymous
             (CallRead {| read_StoreId := "test"; read_TupleKey := None;
                          read_PageSize := None; read_ContinuationToken := "";
                          read_Consistency := 0%Z |}) = _) as Hrun
    by (vm_compute; reflexivity).
  destruct (one_command_at_the_end Sample.world _ _ _ _ _ (EvExecute "ReadQuery.Execute") Hrun)
    as (Hlast & _).
  - repeat constructor.
  - reflexivity.
  - rewrite Hrun. exact Hlast.
Defined.

(** X6: a GetStore without store id fails. *)
Lemma invalid_request_reaches_no_command_witness :
  (serve Sample.world (Sample.server [] None) Sample.anonymous
     (CallGetStore {| gs_StoreId := "" |})).1 <> None.
Proof.
  eassert (serve Sample.world (Sample.server [] None) Sample.anonymous
             (CallGetStore {| gs_StoreId := "" |}) = _) as Hrun
    by (vm_compute; reflexivity).
  destruct (invalid_request_reaches_no_command Sample.world _ _ _ _ _ Hrun) as (Hinvalid & _).
  destruct (Hinvalid eq_refl "invalid GetStoreRequest.StoreId" eq_refl) as (Hr & _).
  rewrite Hrun. exact Hr.
Defined.

(** X10: the modules of a batch over two modular types. *)
Lemma getModulesForWriteRequest_sound_witness :
  NoDup ["wiki"; "docs"]
  /\ forall m, m ∈ ["wiki"; "docs"] -> m <> "".
Proof.
  destruct (getModulesForWriteRequest_sound Sample.world (Sample.server [] None)
              (Sample.writeRequest "test" "01MODEL"
                 [("document:1", "viewer"); ("wiki:1", "viewer")] [("document:2", "viewer")])
              (Sample.typesys "01MODEL") ["wiki"; "docs"]) as (Hnodup & Hsound).
  - vm_compute. reflexivity.
  - split; [exact Hnodup |]. intros m Hin. by destruct (Hsound m Hin).
Defined.

(** X11: every tuple of the batch has a module. *)
Lemma getModulesForWriteRequest_complete_witness :
  exists modules,
    getModulesForWriteRequest Sample.world (Sample.server [] None)
      (Sample.writeRequest "test" "01MODEL" [("document:1", "viewer")] [("wiki:1", "viewer")])
      (Sample.typesys "01MODEL") = Ok modules.
Proof.
  destruct (getModulesForWriteRequest_complete Sample.world (Sample.server [] None)
              (Sample.writeRequest "test" "01MODEL" [("document:1", "viewer")]
                 [("wiki:1", "viewer")])
              (Sample.typesys "01MODEL")) as (modules & Hmods & _).
  - intros tk Hin. read_in Hin. subst tk. exists "docs". split; [reflexivity | discriminate].
  - intros tk Hin. read_in Hin. subst tk. exists "wiki". split; [reflexivity | discriminate].
  - by exists modules.
Defined.

(** X12: a folder tuple after a document tuple among the writes. *)
Lemma getModulesForWriteRequest_first_write_decides_witness :
  getModulesForWriteRequest Sample.world (Sample.server [] None)
    (Sample.writeRequest "test" "01MODEL"
       [("document:1", "viewer"); ("folder:1", "viewer"); ("wiki:1", "viewer")]
       [("wiki:2", "viewer")])
    (Sample.typesys "01MODEL") = Ok [].
Proof.
  destruct (getModulesForWriteRequest_first_write_decides Sample.world (Sample.server [] None)
              (Sample.writeRequest "test" "01MODEL"
                 [("document:1", "viewer"); ("folder:1", "viewer"); ("wiki:1", "viewer")]
                 [("wiki:2", "viewer")])
              (Sample.typesys "01MODEL")
              [ {| tk_User := "user:anne"; tk_Relation := "viewer"; tk_Object := "document:1";
                   tk_Condition := None |} ]
              {| tk_User := "user:anne"; tk_Relation := "viewer"; tk_Object := "folder:1";
                 tk_Condition := None |}
              [ {| tk_User := "user:anne"; tk_Relation := "viewer"; tk_Object := "wiki:1";
                   tk_Condition := None |} ]) as (Hempty & _).
  - reflexivity.
  - intros tk Hin. read_in Hin. subst tk. exists "docs". split; [reflexivity | discriminate].
  - apply Hempty. reflexivity.
Defined.

(** X13: a folder tuple between two wiki tuples among the deletes. *)
Lemma getModulesForWriteRequest_delete_stops_silently_witness :
  exists modules,
    getModulesForWriteRequest Sample.world (Sample.server [] None)
      (Sample.writeRequest "test" "01MODEL" [("document:1", "viewer")]
         [("wiki:1", "viewer"); ("folder:1", "viewer"); ("wiki:2", "viewer")])
      (Sample.typesys "01MODEL") = Ok modules
    /\ "docs" ∈ modules.
Proof.
  destruct (getModulesForWriteRequest_delete_stops_silently Sample.world (Sample.server [] None)
              (Sample.writeRequest "test" "01MODEL" [("document:1", "viewer")]
                 [("wiki:1", "viewer"); ("folder:1", "viewer"); ("wiki:2", "viewer")])
              (Sample.typesys "01MODEL")
              [ {| tkwc_User := "user:anne"; tkwc_Relation := "viewer";
                   tkwc_Object := "wiki:1" |} ]
              {| tkwc_User := "user:anne"; tkwc_Relation := "viewer"; tkwc_Object := "folder:1" |}
              [ {| tkwc_User := "user:anne"; tkwc_Relation := "viewer";
                   tkwc_Object := "wiki:2" |} ]) as (modules & Hmods & Hiff).
  - intros tk Hin. read_in Hin. subst tk. exists "docs". split; [reflexivity | discriminate].
  - reflexivity.
  - intros tk Hin. read_in Hin. subst tk. exists "wiki". split; [reflexivity | discriminate].
  - reflexivity.
  - exists modules. split; [exact Hmods |].
    apply Hiff. left.
    exists {| tk_User := "user:anne"; tk_Relation := "viewer"; tk_Object := "document:1";
              tk_Condition := None |}.
    split; [repeat constructor | reflexivity].
Defined.

(** X14: a Check that is allowed. *)
Lemma Check_answers_with_the_resolver_witness :
  exists answer metadata,
    Sample.resolver
      {| graph.StoreID := "test";
         graph.AuthorizationModelID := "01MODEL";
         graph.TupleKey_ := {| tk_User := "user:anne"; tk_Relation := "viewer";
                               tk_Object := "document:1"; tk_Condition := None |};
         graph.ContextualTuples := [];
         graph.Context_ := None;
         graph.RequestMetadata := {| Depth := 25; DispatchCounter := 0; WasThrottled := false |};
         graph.Consistency := 0%Z |} = (Ok answer, metadata)
    /\ graph.resp_Allowed answer = true.
Proof.
  destruct (Check_answers_with_the_resolver Sample.world (Sample.server [] None)
              Sample.anonymous (Sample.checkRequest "document:1" 0%Z) {| Allowed := true |}
              (Check Sample.world (Sample.server [] None) Sample.anonymous
                 (Sample.checkRequest "document:1" 0%Z) init).2)
    as (typesys & answer & metadata & Hts & Hres & Hallowed & _).
  - vm_compute. reflexivity.
  - injection Hts as <-. exists answer, metadata. split; [exact Hres | by rewrite <- Hallowed].
Defined.

(** X15: a resolver whose condition evaluation fails. *)
Lemma Check_evaluation_failure_is_validation_error_witness :
  (Check Sample.world (set_checkResolver Scenario.conditionResolver (Sample.server [] None))
     Sample.anonymous (Sample.checkRequest "document:1" 0%Z) init).1 =
    Err (serverErrors_ValidationError Sample.world
           (wrapError "failed to evaluate relationship condition"
              (sentinelError condition_ErrEvaluationFailed))).
Proof.
  apply (Check_evaluation_failure_is_validation_error Sample.world
           (set_checkResolver Scenario.conditionResolver (Sample.server [] None))
           Sample.anonymous (Sample.checkRequest "document:1" 0%Z)
           {| graph.StoreID := "test";
              graph.AuthorizationModelID := "01MODEL";
              graph.TupleKey_ := {| tk_User := "user:anne"; tk_Relation := "viewer";
                                    tk_Object := "document:1"; tk_Condition := None |};
              graph.ContextualTuples := [];
              graph.Context_ := None;
              graph.RequestMetadata := graph.NewCheckRequestMetadata 25;
              graph.Consistency := 0%Z |}
           _ (graph.NewCheckRequestMetadata 25)).
  - vm_compute. repeat constructor.
  - reflexivity.
  - reflexivity.
  - reflexivity.
Defined.

(** X16: a list-objects query whose condition evaluation fails. *)
Lemma ListObjects_query_error_witness :
  let err := wrapError "failed to evaluate relationship condition"
               (sentinelError condition_ErrEvaluationFailed) in
  let W := Scenario.withFailingListObjects Sample.world err in
  let req := {| lo_StoreId := "test"; lo_AuthorizationModelId := "01MODEL";
                lo_Type := "document"; lo_Relation := "viewer"; lo_User := "user:anne";
                lo_ContextualTuples := []; lo_Context := None; lo_Consistency := 0%Z |} in
  (ListObjects W (Sample.server [] None) Sample.anonymous req init).1 =
    Err (serverErrors_ValidationError W err)
  /\ (StreamedListObjects W (Sample.server [] None) req Sample.anonymous init).1 = Err err.
Proof.
  cbv zeta.
  set (err := wrapError "failed to evaluate relationship condition"
                (sentinelError condition_ErrEvaluationFailed)).
  set (W := Scenario.withFailingListObjects Sample.world err).
  set (req := {| lo_StoreId := "test"; lo_AuthorizationModelId := "01MODEL";
                 lo_Type := "document"; lo_Relation := "viewer"; lo_User := "user:anne";
                 lo_ContextualTuples := []; lo_Context := None; lo_Consistency := 0%Z |}).
  destruct (ListObjects_query_error W (Sample.server [] None) Sample.anonymous req
              (Sample.typesys "01MODEL") err eq_refl eq_refl
              (or_intror eq_refl) (or_intror eq_refl) eq_refl eq_refl) as (Hlist & Hstream).
  split.
  - rewrite Hlist; reflexivity.
  - apply Hstream. reflexivity.
Defined.

(** X17: a Write without a model id runs under the latest model. *)
Lemma commands_run_under_resolved_model_witness :
  exists typesys,
    GetAuthorizationModelID typesys = "01LATEST"
    /\ WriteCommand_Execute Sample.world
         {| write_StoreId := "test";
            write_AuthorizationModelId := GetAuthorizationModelID typesys;
            write_Writes := write_Writes (Sample.writeRequest "test" ""
                                            [("document:1", "viewer")] []);
            write_Deletes := [] |} = Ok (protoMessage "WriteResponse").
Proof.
  destruct (commands_run_under_resolved_model Sample.world (Sample.server [] None)
              Sample.anonymous) as (Hwrite & _).
  destruct (Hwrite (Sample.writeRequest "test" "" [("document:1", "viewer")] [])
              (protoMessage "WriteResponse")
              (Write Sample.world (Sample.server [] None) Sample.anonymous
                 (Sample.writeRequest "test" "" [("document:1", "viewer")] []) init).2)
    as (typesys & Hts & Hexec).
  - vm_compute. reflexivity.
  - exists typesys. split; [| exact Hexec]. injection Hts as <-. reflexivity.
Defined.
